(** * B-tree node reserve (lf_hfs_btree_node_reserve.c)

    A shallow embedding of [BTReserveSpace], [BTReleaseReserve],
    [BTUpdateReserve] and of the private hash routines [nr_insert],
    [nr_delete] and [nr_update], with the properties of the node-reserve
    estimate, of the free-space admission checks and of the reserve hash
    that the design document states for them. *)

From stdpp Require Import gmap list.
From Stdlib Require Import ZArith Lia.

Local Open Scope Z_scope.

(** ** Machine integers

    [int] is a 32-bit two's complement integer and [u_int32_t] a 32-bit
    unsigned one.  Values are kept in [Z]; every arithmetic result is
    reduced to the range of its C type.  Reading a field into a variable of
    the same type changes nothing. *)

Module CInt.

Definition INT_MIN : Z := - 2 ^ 31.
Definition INT_MAX : Z := 2 ^ 31 - 1.
Definition UINT32_MAX : Z := 2 ^ 32 - 1.

(** Conversion to [u_int32_t]: reduction modulo [2^32]. *)
Definition to_u32 (z : Z) : Z := z mod 2 ^ 32.

(** Conversion to [int]: the representative in [[-2^31, 2^31)]. *)
Definition to_int (z : Z) : Z := (z + 2 ^ 31) mod 2 ^ 32 - 2 ^ 31.

Definition is_int (z : Z) : Prop := INT_MIN <= z <= INT_MAX.
Definition is_u32 (z : Z) : Prop := 0 <= z <= UINT32_MAX.

End CInt.

Import CInt.

(** [ENOSPC] of <errno.h>. *)
Definition ENOSPC : Z := 28.

(** ** Data

    Only the fields that this file reads or writes are kept.  Pointers
    ([struct vnode *], the [void *] tags, the [struct nreserve *] handles)
    are addresses in [Z]; [0] is the null pointer. *)

(** [FCB]: the fork's clump size, a [u_int32_t] number of bytes. *)
Record FCB : Type := mkFCB { ff_clumpsize : Z }.

(** [BTreeControlBlock], reached from the file through [fcbBTCBPtr].  The
    struct is declared in lf_hfs_btrees_private.h; the depth and the node
    size are 16-bit unsigned there and the three node counts 32-bit
    unsigned. *)
Record BTreeControlBlock : Type := mkBTCB {
  fileRefNum : Z;       (* the b-tree file's vnode *)
  treeDepth : Z;        (* u_int16_t *)
  nodeSize : Z;         (* u_int16_t *)
  totalNodes : Z;       (* u_int32_t *)
  freeNodes : Z;        (* u_int32_t *)
  reservedNodes : Z     (* u_int32_t *)
}.

(** [struct hfsmount]: [allocLimit] and [blockSize] are read here;
    [freeBlocks] stands for the rest of the mount, which only
    [hfs_freeblks] looks at. *)
Record hfsmount : Type := mkMount {
  allocLimit : Z;       (* u_int32_t *)
  blockSize : Z;        (* u_int32_t *)
  freeBlocks : Z
}.

(** [struct nreserve] without its [nr_hash] link: the links are the hash
    chains of [nr_state] below. *)
Record nreserve : Type := mkNR {
  nr_nodecnt : Z;       (* count of nodes held in reserve *)
  nr_newnodes : Z;      (* nodes that were allocated *)
  nr_btvp : Z;          (* b-tree file vnode *)
  nr_tag : Z            (* unique tag (per thread) *)
}.

(** What [bzero (nrp, sizeof (struct nreserve))] leaves. *)
Definition nr_zero : nreserve := mkNR 0 0 0 0.

(** The globals of the reserve hash together with the memory that holds
    the callers' [struct nreserve] slots.  [nr_hashtbl] maps a bucket index
    to its chain of slot addresses, head first; a bucket that is not in the
    map has an empty chain.  [nr_mem] maps the address of a slot to its
    contents; an address that is not in the map is not a valid pointer. *)
Record nr_state : Type := mkNRState {
  nr_hashtbl : gmap Z (list Z);
  nr_mem : gmap Z nreserve;
  nrinserts : Z;
  nrdeletes : Z
}.

(** What a call of the external [ExtendBTree] leaves: its status and the
    file, tree and mount as it updated them. *)
Record ext_result : Type := mkExt {
  ext_err : Z;
  ext_file : FCB;
  ext_btree : BTreeControlBlock;
  ext_hfsmp : hfsmount
}.

(** The state a call runs in.  [extend_calls] is a ghost log with one entry
    (new total node count, clump size of the file at the call) for every
    call of [ExtendBTree], oldest first. *)
Record world : Type := mkWorld {
  file : FCB;
  btree : BTreeControlBlock;
  hfsmp : hfsmount;
  nr : nr_state;
  extend_calls : list (Z * Z)
}.

Definition set_reservedNodes (v : Z) (bt : BTreeControlBlock)
  : BTreeControlBlock :=
  mkBTCB (fileRefNum bt) (treeDepth bt) (nodeSize bt) (totalNodes bt)
         (freeNodes bt) v.

Definition set_nr_tag (v : Z) (r : nreserve) : nreserve :=
  mkNR (nr_nodecnt r) (nr_newnodes r) (nr_btvp r) v.

Definition set_nr_nodecnt (v : Z) (r : nreserve) : nreserve :=
  mkNR v (nr_newnodes r) (nr_btvp r) (nr_tag r).

Definition set_nr_newnodes (v : Z) (r : nreserve) : nreserve :=
  mkNR (nr_nodecnt r) v (nr_btvp r) (nr_tag r).

Definition set_nr_mem (m : gmap Z nreserve) (s : nr_state) : nr_state :=
  mkNRState (nr_hashtbl s) m (nrinserts s) (nrdeletes s).

Definition set_file (f : FCB) (w : world) : world :=
  mkWorld f (btree w) (hfsmp w) (nr w) (extend_calls w).

Definition set_btree (bt : BTreeControlBlock) (w : world) : world :=
  mkWorld (file w) bt (hfsmp w) (nr w) (extend_calls w).

Definition set_hfsmp (m : hfsmount) (w : world) : world :=
  mkWorld (file w) (btree w) m (nr w) (extend_calls w).

Definition set_nr (s : nr_state) (w : world) : world :=
  mkWorld (file w) (btree w) (hfsmp w) s (extend_calls w).

(** ** The node-reserve estimate (BTReserveSpace, lines 106-121) *)

(** [height = btree->treeDepth; if (height < 2) height = 2;] *)
Definition clamp_height (treeDepth : Z) : Z :=
  let height := treeDepth in
  if height <? 2 then 2 else height.

(** [inserts = operations & 0xffff;] *)
Definition op_inserts (operations : Z) : Z := Z.land operations 0xffff.

(** [deletes = operations >> 16;] ([operations] is an [int]: the shift is
    the arithmetic one). *)
Definition op_deletes (operations : Z) : Z := Z.shiftr operations 16.

(** [rsrvNodes = 1 + (deletes * (height - 2)) + (inserts * (height - 1));]
    in [int] arithmetic. *)
Definition estimate (height inserts deletes : Z) : Z :=
  to_int (to_int (1 + to_int (deletes * to_int (height - 2)))
          + to_int (inserts * to_int (height - 1))).

Definition rsrvNodes_of (bt : BTreeControlBlock) (operations : Z) : Z :=
  estimate (clamp_height (treeDepth bt)) (op_inserts operations)
           (op_deletes operations).

(** [availNodes = btree->freeNodes - btree->reservedNodes;]: an unsigned
    difference stored in an [int]. *)
Definition availNodes_of (bt : BTreeControlBlock) : Z :=
  to_int (to_u32 (freeNodes bt - reservedNodes bt)).

(** The batch adds items and removes none:
    [(inserts > 0) && (deletes == 0)]. *)
Definition insert_only (inserts deletes : Z) : bool :=
  (0 <? inserts) && (deletes =? 0).

(** ** The reserve hash (lines 42-53, 230-313) *)

(** The chain of bucket [i]. *)
Definition nr_chain (s : nr_state) (i : Z) : list Z :=
  default [] (nr_hashtbl s !! i).

(** [(tmp_nrp->nr_tag == tag) && (tmp_nrp->nr_btvp == btvp)] *)
Definition nr_is (btvp tag : Z) (r : nreserve) : bool :=
  (nr_tag r =? tag) && (nr_btvp r =? btvp).

(** The loop [for (tmp_nrp = nrhead->lh_first; tmp_nrp; tmp_nrp =
    tmp_nrp->nr_hash.le_next)] of [nr_insert] and [nr_update]: the first
    slot of the chain with this tag and vnode, if any.  Following a link to
    an address that is not a valid slot is a fault ([None]). *)
Fixpoint nr_lookup (mem : gmap Z nreserve) (btvp tag : Z) (chain : list Z)
  : option (option Z) :=
  match chain with
  | [] => Some None
  | a :: rest =>
      match mem !! a with
      | None => None
      | Some r => if nr_is btvp tag r then Some (Some a)
                  else nr_lookup mem btvp tag rest
      end
  end.

(** [LIST_REMOVE (nrp, nr_hash)]: the slot is unlinked from the chain that
    holds it.  A slot has one link field, so it is in at most one place;
    the model removes the address wherever it occurs.  (On a slot that is
    in no chain the macro would write through stale links; [nr_delete] only
    unlinks a slot that carries the caller's tag, which [nr_insert] gives
    to the slots it links.) *)
Definition nr_unlink (nrp : Z) (tbl : gmap Z (list Z)) : gmap Z (list Z) :=
  (fun chain => filter (fun a => a ≠ nrp) chain) <$> tbl.

(** [BTReserveSetup ()]: [hashinit] gives a table whose chains are all
    empty and the two counters start at 0.  [mem] is the memory of the
    callers' slots, which the setup does not look at. *)
Definition BTReserveSetup (mem : gmap Z nreserve) : nr_state :=
  mkNRState ∅ mem 0 0.

(** The outcome of the free-space checks of [BTReserveSpace] (lines
    126-174): either [return (ENOSPC)], or control reaches the call of
    [ExtendBTree] with the file as it then is and the new total. *)
Inductive admission : Type :=
| Refuse
| Grow (file' : FCB) (totalNodes : Z).

(** ** Concrete data for the scenarios

    A volume with blocks of 4096 bytes and an allocation limit of 1000
    blocks, so that 50 blocks are kept back; a tree of depth 3 with nodes of
    8192 bytes, 100 of them, none free; a clump size of 100 blocks. *)
Module Scenario.

(** [HFS_BT_MAXRESERVE] as 10 MB, the figure the comment at lines 131-133
    gives. *)
Definition maxreserve : Z := 10 * 1024 * 1024.

(** [hfs_freeblks] as the mount's free block count. *)
Definition freeblks (m : hfsmount) (wantreserve : Z) : Z := freeBlocks m.

(** [CalcMapBits] for a map that addresses 65536 nodes. *)
Definition mapbits (bt : BTreeControlBlock) : Z := 65536.

(** An [ExtendBTree] that succeeds: the tree has the nodes asked for, the
    new ones free. *)
Definition extend_ok (f : FCB) (bt : BTreeControlBlock) (m : hfsmount)
           (newTotalNodes : Z) : ext_result :=
  mkExt 0 f
        (mkBTCB (fileRefNum bt) (treeDepth bt) (nodeSize bt) newTotalNodes
                (freeNodes bt + (newTotalNodes - totalNodes bt))
                (reservedNodes bt))
        m.

(** An [ExtendBTree] that fails with [dskFulErr] and changes nothing. *)
Definition extend_fail (f : FCB) (bt : BTreeControlBlock) (m : hfsmount)
           (newTotalNodes : Z) : ext_result :=
  mkExt (-34) f bt m.

(** [nr_hashmask] after [hashinit (NR_CACHE, &nr_hashmask)]: 16 buckets. *)
Definition hashmask : Z := 15.

Definition tree (free reserved : Z) : BTreeControlBlock :=
  mkBTCB 4096 3 8192 100 free reserved.

Definition volume (free : Z) : hfsmount := mkMount 1000 4096 free.

(** Two slots of the callers, zeroed, at the addresses 256 and 512. *)
Definition slots : gmap Z nreserve := <[256 := nr_zero]> (<[512 := nr_zero]> ∅).

Definition hash0 : nr_state := BTReserveSetup slots.

(** The thread that calls. *)
Definition thread : Z := 7.

Definition start (treeFree volumeFree : Z) : world :=
  mkWorld (mkFCB 409600) (tree treeFree 0) (volume volumeFree) hash0 [].

End Scenario.

Section NodeReserve.

(** ** What the file takes from the rest of the plugin

    These are declared in headers and defined in files that are not part
    of this development; the code below is parametric in them. *)

(** [HFS_BT_MAXRESERVE], a number of bytes. *)
Variable HFS_BT_MAXRESERVE : Z.

(** [hfs_freeblks (hfsmp, wantreserve)]. *)
Variable hfs_freeblks : hfsmount -> Z -> Z.

(** [CalcMapBits (btree)]. *)
Variable CalcMapBits : BTreeControlBlock -> Z.

(** [ExtendBTree (btree, newTotalNodes)]: it works on the tree, on its
    file and on the volume, and leaves the reserve hash alone. *)
Variable ExtendBTree : FCB -> BTreeControlBlock -> hfsmount -> Z -> ext_result.

(** [nr_hashmask], as [hashinit] set it in [BTReserveSetup]. *)
Variable nr_hashmask : Z.

(** [NR_HASH (btvp, tag)]: the index of the bucket. *)
Definition NR_HASH (btvp tag : Z) : Z :=
  Z.land (Z.lxor (Z.shiftr btvp 8) (Z.shiftr tag 4)) nr_hashmask.

(** [nr_insert (btvp, nrp, nodecnt)], called by the thread [tag]
    ([NR_GET_TAG ()]).  [None] is a fault: [nrp] or a link of the chain
    is not a valid slot. *)
Definition nr_insert (s : nr_state) (tag btvp nrp nodecnt : Z)
  : option nr_state :=
  let nrhead := NR_HASH btvp tag in
  match nr_lookup (nr_mem s) btvp tag (nr_chain s nrhead) with
  | None => None
  | Some (Some tmp_nrp) =>
      (* nrp->nr_tag = 0; *)
      match nr_mem s !! nrp with
      | None => None
      | Some r =>
          let mem1 := <[nrp := set_nr_tag 0 r]> (nr_mem s) in
          (* tmp_nrp->nr_nodecnt += nodecnt; *)
          match mem1 !! tmp_nrp with
          | None => None
          | Some t =>
              Some (set_nr_mem
                      (<[tmp_nrp :=
                           set_nr_nodecnt (to_int (nr_nodecnt t + nodecnt)) t]>
                         mem1) s)
          end
      end
  | Some None =>
      match nr_mem s !! nrp with
      | None => None
      | Some _ =>
          Some (mkNRState
                  (<[nrhead := nrp :: nr_chain s nrhead]> (nr_hashtbl s))
                  (<[nrp := mkNR nodecnt 0 btvp tag]> (nr_mem s))
                  (to_int (nrinserts s + 1))
                  (nrdeletes s))
      end
  end.

(** [nr_delete (btvp, nrp, &nodecnt)], called by the thread [tag]; the
    result carries [*nodecnt].  [None] is a fault: [nrp] is not a valid
    slot, or [hfs_assert (0)] stops the program. *)
Definition nr_delete (s : nr_state) (tag btvp nrp : Z)
  : option (Z * nr_state) :=
  match nr_mem s !! nrp with
  | None => None
  | Some r =>
      if nr_tag r =? 0 then Some (0, s)
      else if negb (nr_tag r =? tag) || negb (nr_btvp r =? btvp) then None
      else Some (nr_nodecnt r,
                 mkNRState (nr_unlink nrp (nr_hashtbl s))
                           (<[nrp := nr_zero]> (nr_mem s))
                           (nrinserts s)
                           (to_int (nrdeletes s + 1)))
  end.

(** [nr_update (btvp, nodecnt)], called by the thread [tag]. *)
Definition nr_update (s : nr_state) (tag btvp nodecnt : Z)
  : option nr_state :=
  match nr_lookup (nr_mem s) btvp tag (nr_chain s (NR_HASH btvp tag)) with
  | None => None
  | Some None => Some s
  | Some (Some nrp) =>
      match nr_mem s !! nrp with
      | None => None
      | Some r =>
          Some (set_nr_mem
                  (<[nrp := set_nr_newnodes (to_int (nr_newnodes r + nodecnt)) r]>
                     (nr_mem s)) s)
      end
  end.

(** ** BTReserveSpace *)

(** Lines 140-147: the blocks kept back, the smaller of 5% of the
    allocation limit and of [HFS_BT_MAXRESERVE] bytes in blocks (one
    block when a block is larger than that).  Called with a block size
    that is not 0. *)
Definition rsrvblks_of (m : hfsmount) : Z :=
  let rsrvblks := to_u32 ((allocLimit m * 5) / 100) in
  let bt_rsrv :=
    if to_u32 HFS_BT_MAXRESERVE <? blockSize m then 1
    else to_u32 HFS_BT_MAXRESERVE / blockSize m in
  Z.min rsrvblks bt_rsrv.

(** Line 162: the blocks that the missing nodes take. *)
Definition shortfall_blocks (bt : BTreeControlBlock) (m : hfsmount)
           (rsrvNodes availNodes : Z) : Z :=
  to_u32 (to_int (to_int (rsrvNodes - availNodes) * nodeSize bt))
  / blockSize m.

(** Lines 169-174: the new total, one more when a map node is needed. *)
Definition new_totalNodes (bt : BTreeControlBlock)
           (rsrvNodes availNodes : Z) : Z :=
  let totalNodes :=
    to_int (to_u32 (to_u32 (rsrvNodes + totalNodes bt) - availNodes)) in
  if to_int (CalcMapBits bt) <? totalNodes then to_int (totalNodes + 1)
  else totalNodes.

(** Lines 149-158 when they do not return: the free blocks beyond the
    blocks kept back, 0 when there are none. *)
Definition adjusted_freeblks (m : hfsmount) : Z :=
  let rsrvblks := rsrvblks_of m in
  let freeblks := to_u32 (hfs_freeblks m 0) in
  if freeblks <=? rsrvblks then 0 else to_u32 (freeblks - rsrvblks).

(** Lines 159-174, with [freeblks] as lines 149-158 left it. *)
Definition reserve_growth (f : FCB) (bt : BTreeControlBlock) (m : hfsmount)
           (rsrvNodes availNodes inserts deletes freeblks : Z) : admission :=
  let clumpsize := ff_clumpsize f in
  let reqblks := clumpsize / blockSize m in
  if freeblks <? reqblks then
    let reqblks := shortfall_blocks bt m rsrvNodes availNodes in
    if (freeblks <? reqblks) && insert_only inserts deletes then Refuse
    else Grow (mkFCB (to_u32 (freeblks * blockSize m)))
              (new_totalNodes bt rsrvNodes availNodes)
  else Grow f (new_totalNodes bt rsrvNodes availNodes).

(** Lines 126-174, the body of [if (rsrvNodes > availNodes)] up to the
    call of [ExtendBTree].  [None] is the division by a block size of 0
    at line 145. *)
Definition reserve_admit (f : FCB) (bt : BTreeControlBlock) (m : hfsmount)
           (rsrvNodes availNodes inserts deletes : Z) : option admission :=
  if blockSize m =? 0 then None
  else
    let rsrvblks := rsrvblks_of m in
    let freeblks := to_u32 (hfs_freeblks m 0) in
    if freeblks <=? rsrvblks then
      if insert_only inserts deletes then Some Refuse
      else Some (reserve_growth f bt m rsrvNodes availNodes inserts deletes 0)
    else
      Some (reserve_growth f bt m rsrvNodes availNodes inserts deletes
                           (to_u32 (freeblks - rsrvblks))).

(** Lines 180-183: [if (data) { btree->reservedNodes += rsrvNodes;
    nr_insert (...); }]. *)
Definition reserve_save (w : world) (tag data rsrvNodes : Z) : option world :=
  if data =? 0 then Some w
  else
    let bt := set_reservedNodes
                (to_u32 (reservedNodes (btree w) + rsrvNodes)) (btree w) in
    match nr_insert (nr w) tag (fileRefNum bt) data rsrvNodes with
    | None => None
    | Some s => Some (set_nr s (set_btree bt w))
    end.

(** Lines 184-189, the label [out]: the clump size is put back. *)
Definition reserve_out (clumpsize : Z) (w : world) : world :=
  if ff_clumpsize (file w) =? clumpsize then w
  else set_file (mkFCB clumpsize) w.

(** [BTReserveSpace (file, operations, data)], called by the thread
    [tag]; the result is the returned status and the state left. *)
Definition BTReserveSpace (w : world) (tag operations data : Z)
  : option (Z * world) :=
  let bt := btree w in
  let clumpsize := ff_clumpsize (file w) in
  let inserts := op_inserts operations in
  let deletes := op_deletes operations in
  let rsrvNodes := rsrvNodes_of bt operations in
  let availNodes := availNodes_of bt in
  if availNodes <? rsrvNodes then
    match reserve_admit (file w) bt (hfsmp w) rsrvNodes availNodes
                        inserts deletes with
    | None => None
    | Some Refuse => Some (ENOSPC, w)
    | Some (Grow f totalNodes) =>
        let r := ExtendBTree f bt (hfsmp w) totalNodes in
        let w1 := mkWorld (ext_file r) (ext_btree r) (ext_hfsmp r) (nr w)
                          (extend_calls w ++ [(totalNodes, ff_clumpsize f)]) in
        if ext_err r =? 0 then
          match reserve_save w1 tag data rsrvNodes with
          | None => None
          | Some w2 => Some (0, reserve_out clumpsize w2)
          end
        else Some (ext_err r, reserve_out clumpsize w1)
    end
  else
    match reserve_save w tag data rsrvNodes with
    | None => None
    | Some w2 => Some (0, reserve_out clumpsize w2)
    end.

(** [BTReleaseReserve (file, data)], called by the thread [tag]. *)
Definition BTReleaseReserve (w : world) (tag data : Z) : option (Z * world) :=
  let bt := btree w in
  match nr_delete (nr w) tag (fileRefNum bt) data with
  | None => None
  | Some (nodecnt, s) =>
      let w1 := set_nr s w in
      if nodecnt =? 0 then Some (0, w1)
      else Some (0, set_btree
                      (set_reservedNodes
                         (to_u32 (reservedNodes bt - nodecnt)) bt) w1)
  end.

(** [BTUpdateReserve (btreePtr, nodes)], called by the thread [tag]. *)
Definition BTUpdateReserve (w : world) (tag nodes : Z) : option world :=
  match nr_update (nr w) tag (fileRefNum (btree w)) nodes with
  | None => None
  | Some s => Some (set_nr s w)
  end.


(** ** The shape of the reserve hash *)

(** The slot at [a] is linked in a chain. *)
Definition nr_linked (s : nr_state) (a : Z) : Prop :=
  exists i, a ∈ nr_chain s i.

(** The slot at [a] is a record of the hash for the tree [btvp] and the
    owner [tag]. *)
Definition nr_record (s : nr_state) (btvp tag a : Z) : Prop :=
  nr_linked s a /\
  exists r, nr_mem s !! a = Some r /\ nr_tag r = tag /\ nr_btvp r = btvp.

(** What the hash routines keep: every link is a valid slot, linked once
    in its chain; a record with a tag is in the bucket of its key; and no
    two records have the same tree and the same (non-null) owner. *)
Record nr_wf (s : nr_state) : Prop := mk_nr_wf {
  wf_valid : forall i a, a ∈ nr_chain s i -> is_Some (nr_mem s !! a);
  wf_once : forall i, NoDup (nr_chain s i);
  wf_bucket : forall i a r,
      a ∈ nr_chain s i -> nr_mem s !! a = Some r -> nr_tag r <> 0 ->
      NR_HASH (nr_btvp r) (nr_tag r) = i;
  wf_unique : forall btvp tag a b,
      tag <> 0 -> nr_record s btvp tag a -> nr_record s btvp tag b -> a = b
}.

(** One call of a hash routine, or a caller writing a slot of its own
    that is not linked (a new slot, or one it zeroes before use).
    [nr_insert] is given a slot that is not linked: its callers hand in a
    slot of their own that they released or never used. *)
Inductive nr_step (s s' : nr_state) : Prop :=
| step_insert (tag btvp nrp nodecnt : Z) :
    ~ nr_linked s nrp ->
    nr_insert s tag btvp nrp nodecnt = Some s' ->
    nr_step s s'
| step_delete (tag btvp nrp nodecnt : Z) :
    nr_delete s tag btvp nrp = Some (nodecnt, s') ->
    nr_step s s'
| step_update (tag btvp nodecnt : Z) :
    nr_update s tag btvp nodecnt = Some s' ->
    nr_step s s'
| step_caller (a : Z) (r : nreserve) :
    ~ nr_linked s a ->
    s' = set_nr_mem (<[a := r]> (nr_mem s)) s ->
    nr_step s s'.

(** The states of the hash at any time: those that such steps reach from
    [BTReserveSetup]. *)
Definition nr_reachable (mem : gmap Z nreserve) (s : nr_state) : Prop :=
  rtc nr_step (BTReserveSetup mem) s.

(** ** The nodes that the hash holds for a tree *)

(** The sum of [F] over a list of addresses or of bucket indices. *)
Definition sumZ (F : Z -> Z) (l : list Z) : Z :=
  foldr (fun i acc => F i + acc) 0 l.

(** The count of the slot at [a] when it belongs to the tree [btvp]. *)
Definition slot_nodes (mem : gmap Z nreserve) (btvp a : Z) : Z :=
  match mem !! a with
  | Some r => if nr_btvp r =? btvp then nr_nodecnt r else 0
  | None => 0
  end.

(** The counts of all the slots linked in the buckets 0 to [nr_hashmask]
    that belong to the tree [btvp]. *)
Definition held_nodes (s : nr_state) (btvp : Z) : Z :=
  sumZ (fun i => sumZ (slot_nodes (nr_mem s) btvp) (nr_chain s i))
       (seqZ 0 (nr_hashmask + 1)).

(** The tree's reserved-node counter is what the hash holds for the tree,
    as a [u_int32_t]. *)
Definition balanced (w : world) : Prop :=
  reservedNodes (btree w)
  = to_u32 (held_nodes (nr w) (fileRefNum (btree w))).

(** ** Facts on machine integers *)

Lemma to_u32_range z : is_u32 (to_u32 z).
Proof.
  unfold is_u32, to_u32, UINT32_MAX.
  pose proof (Z.mod_pos_bound z (2 ^ 32)). lia.
Qed.

Lemma to_int_range z : is_int (to_int z).
Proof.
  unfold is_int, to_int, INT_MIN, INT_MAX.
  pose proof (Z.mod_pos_bound (z + 2 ^ 31) (2 ^ 32)). lia.
Qed.

Lemma to_u32_small z : is_u32 z -> to_u32 z = z.
Proof.
  unfold is_u32, to_u32, UINT32_MAX. intros H.
  apply Z.mod_small. lia.
Qed.

Lemma to_int_small z : is_int z -> to_int z = z.
Proof.
  unfold is_int, to_int, INT_MIN, INT_MAX. intros H.
  rewrite Z.mod_small; lia.
Qed.

(** [to_int z] and [z] are congruent modulo [2^32]. *)
Lemma to_int_mod z : to_int z mod 2 ^ 32 = z mod 2 ^ 32.
Proof.
  unfold to_int.
  rewrite (Z.mod_eq (z + 2 ^ 31) (2 ^ 32)) by lia.
  replace (z + 2 ^ 31 - 2 ^ 32 * ((z + 2 ^ 31) / 2 ^ 32) - 2 ^ 31)
    with (z + (- ((z + 2 ^ 31) / 2 ^ 32)) * 2 ^ 32) by ring.
  apply Z.mod_add. lia.
Qed.

Lemma to_int_congr a b : a mod 2 ^ 32 = b mod 2 ^ 32 -> to_int a = to_int b.
Proof.
  intros H. unfold to_int.
  rewrite (Z.add_mod a), (Z.add_mod b), H by lia. reflexivity.
Qed.

Lemma to_int_add_l a b : to_int (to_int a + b) = to_int (a + b).
Proof.
  apply to_int_congr.
  rewrite Z.add_mod, to_int_mod, <- Z.add_mod by lia. reflexivity.
Qed.

Lemma to_int_add_r a b : to_int (a + to_int b) = to_int (a + b).
Proof. rewrite (Z.add_comm a), to_int_add_l. f_equal. lia. Qed.

Lemma to_int_mul_r a b : to_int (a * to_int b) = to_int (a * b).
Proof.
  apply to_int_congr.
  rewrite Z.mul_mod, to_int_mod, <- Z.mul_mod by lia. reflexivity.
Qed.

(** ** The estimate *)

Lemma clamp_height_max h : clamp_height h = Z.max h 2.
Proof. unfold clamp_height. destruct (Z.ltb_spec h 2); lia. Qed.

(** The [int] operations of line 121 give the exact value reduced to an
    [int] once. *)
Lemma estimate_wrap h i d :
  estimate h i d = to_int (1 + d * (h - 2) + i * (h - 1)).
Proof.
  unfold estimate.
  rewrite (to_int_mul_r d (h - 2)), (to_int_mul_r i (h - 1)).
  rewrite (to_int_add_r 1 (d * (h - 2))).
  rewrite (to_int_add_l (1 + d * (h - 2))).
  apply to_int_add_r.
Qed.

Lemma op_inserts_mod operations : op_inserts operations = operations mod 65536.
Proof.
  unfold op_inserts. change 0xffff with (Z.ones 16).
  rewrite Z.land_ones by lia. reflexivity.
Qed.

Lemma op_deletes_div operations : op_deletes operations = operations / 65536.
Proof.
  unfold op_deletes. rewrite Z.shiftr_div_pow2 by lia. reflexivity.
Qed.

Lemma op_inserts_range operations : 0 <= op_inserts operations <= 65535.
Proof.
  rewrite op_inserts_mod.
  pose proof (Z.mod_pos_bound operations 65536). lia.
Qed.

Lemma op_deletes_range operations :
  is_int operations -> -32768 <= op_deletes operations <= 32767.
Proof.
  unfold is_int, INT_MIN, INT_MAX. intros H. rewrite op_deletes_div.
  split.
  - apply Z.div_le_lower_bound; lia.
  - apply Z.lt_succ_r. apply Z.div_lt_upper_bound; lia.
Qed.

(** For a height of at most 21847 the exact value of the estimate fits an
    [int], whatever counts the operations word carries. *)
Lemma counts_fit h i d :
  h <= 21847 -> 0 <= i <= 65535 -> -32768 <= d <= 32767 ->
  is_int (1 + d * (Z.max h 2 - 2) + i * (Z.max h 2 - 1)).
Proof.
  intros Hh Hi Hd.
  unfold is_int, INT_MIN, INT_MAX.
  assert (2 <= Z.max h 2 <= 21847) as Hm by lia.
  generalize dependent (Z.max h 2). intros m Hm.
  nia.
Qed.

Lemma estimate_fits treeDepth operations :
  is_int operations ->
  treeDepth <= 21847 ->
  is_int (1 + op_deletes operations * (Z.max treeDepth 2 - 2)
          + op_inserts operations * (Z.max treeDepth 2 - 1)).
Proof.
  intros Hop Hd. apply counts_fit.
  - assumption.
  - apply op_inserts_range.
  - apply op_deletes_range. assumption.
Qed.

(** The difference of line 123 is the exact one when that fits an [int]. *)
Lemma availNodes_exact bt :
  is_int (freeNodes bt - reservedNodes bt) ->
  availNodes_of bt = freeNodes bt - reservedNodes bt.
Proof.
  intros H. unfold availNodes_of.
  rewrite <- (to_int_small (freeNodes bt - reservedNodes bt)) at 2
    by assumption.
  apply to_int_congr. unfold to_u32. apply Z.mod_mod. lia.
Qed.

(** C1. For every tree height [h], insert count [i] and delete count
    [d], the estimate that [BTReserveSpace] computes (with the height
    raised to 2 when it is below 2) is
    [1 + d * (max h 2 - 2) + i * (max h 2 - 1)]: as an [int] always, and
    as that very number whenever it fits an [int], which it does for every
    pair of counts that an operations word carries and every height up to
    21847. *)
Theorem estimate_formula (h i d : Z) :
  estimate (clamp_height h) i d
  = to_int (1 + d * (Z.max h 2 - 2) + i * (Z.max h 2 - 1)) /\
  (is_int (1 + d * (Z.max h 2 - 2) + i * (Z.max h 2 - 1)) ->
   estimate (clamp_height h) i d
   = 1 + d * (Z.max h 2 - 2) + i * (Z.max h 2 - 1)) /\
  (h <= 21847 -> 0 <= i <= 65535 -> -32768 <= d <= 32767 ->
   estimate (clamp_height h) i d
   = 1 + d * (Z.max h 2 - 2) + i * (Z.max h 2 - 1)).
Proof.
  rewrite clamp_height_max, estimate_wrap. split; [reflexivity |].
  split; [apply to_int_small |].
  intros Hh Hi Hd. apply to_int_small.
  apply counts_fit; assumption.
Qed.

(** C10. The operations word packs both counts: the estimate is computed
    from [operations & 0xffff] as insert count and [operations >> 16] as
    delete count; the insert count is the word modulo 65536, so at most
    65535, the delete count is the word divided by 65536, and a word
    above 65535 always shows a positive delete count. *)
Theorem operations_packing (bt : BTreeControlBlock) (operations : Z) :
  rsrvNodes_of bt operations
  = estimate (clamp_height (treeDepth bt))
             (Z.land operations 0xffff) (Z.shiftr operations 16) /\
  0 <= op_inserts operations <= 65535 /\
  op_inserts operations = operations mod 65536 /\
  op_deletes operations = operations / 65536 /\
  operations = 65536 * op_deletes operations + op_inserts operations /\
  (65535 < operations ->
   0 < op_deletes operations /\ op_inserts operations < operations).
Proof.
  split; [reflexivity |].
  split; [apply op_inserts_range |].
  split; [apply op_inserts_mod |].
  split; [apply op_deletes_div |].
  rewrite op_inserts_mod, op_deletes_div.
  split; [apply Z.div_mod; lia |].
  intros H. split.
  - apply Z.div_str_pos. lia.
  - pose proof (Z.mod_pos_bound operations 65536). lia.
Qed.

(** ** The free-space checks *)

Lemma rsrvblks_nonneg m : 0 < blockSize m -> 0 <= rsrvblks_of m.
Proof.
  intros Hb. unfold rsrvblks_of.
  pose proof (to_u32_range (allocLimit m * 5 / 100)) as [H1 _].
  pose proof (to_u32_range HFS_BT_MAXRESERVE) as [H2 _].
  destruct (to_u32 HFS_BT_MAXRESERVE <? blockSize m).
  - lia.
  - pose proof (Z.div_pos (to_u32 HFS_BT_MAXRESERVE) (blockSize m) H2 Hb).
    lia.
Qed.

Lemma adjusted_freeblks_nonneg m : 0 <= adjusted_freeblks m.
Proof.
  unfold adjusted_freeblks.
  destruct (_ <=? _); [lia |]. apply to_u32_range.
Qed.

(** No free block is left beyond the margin exactly when the free blocks
    do not exceed it. *)
Lemma adjusted_freeblks_zero m :
  0 < blockSize m ->
  adjusted_freeblks m = 0 ->
  to_u32 (hfs_freeblks m 0) <= rsrvblks_of m.
Proof.
  intros Hb. unfold adjusted_freeblks.
  destruct (Z.leb_spec (to_u32 (hfs_freeblks m 0)) (rsrvblks_of m)) as [H | H];
    [lia |].
  pose proof (rsrvblks_nonneg m Hb).
  pose proof (to_u32_range (hfs_freeblks m 0)) as [? ?].
  rewrite to_u32_small; unfold is_u32 in *; lia.
Qed.

(** [reserve_admit] in one piece: the first refusal, then lines 159-174
    on the adjusted free block count. *)
Lemma reserve_admit_unfold f bt m rsrvNodes availNodes inserts deletes :
  blockSize m <> 0 ->
  reserve_admit f bt m rsrvNodes availNodes inserts deletes
  = if (to_u32 (hfs_freeblks m 0) <=? rsrvblks_of m)
       && insert_only inserts deletes
    then Some Refuse
    else Some (reserve_growth f bt m rsrvNodes availNodes inserts deletes
                              (adjusted_freeblks m)).
Proof.
  intros Hb. unfold reserve_admit, adjusted_freeblks.
  destruct (Z.eqb_spec (blockSize m) 0); [contradiction |].
  destruct (_ <=? _); simpl; [| reflexivity].
  destruct (insert_only inserts deletes); reflexivity.
Qed.

Lemma insert_only_deletes inserts deletes :
  deletes <> 0 -> insert_only inserts deletes = false.
Proof.
  intros H. unfold insert_only.
  destruct (Z.eqb_spec deletes 0); [contradiction |].
  apply andb_false_r.
Qed.

Lemma insert_only_true inserts deletes :
  insert_only inserts deletes = true <-> 0 < inserts /\ deletes = 0.
Proof.
  unfold insert_only. rewrite andb_true_iff, Z.ltb_lt, Z.eqb_eq. tauto.
Qed.

(** A batch with a delete passes every free-block check. *)
Lemma reserve_admit_deletes f bt m rsrvNodes availNodes inserts deletes :
  deletes <> 0 ->
  blockSize m <> 0 ->
  exists f' totalNodes,
    reserve_admit f bt m rsrvNodes availNodes inserts deletes
    = Some (Grow f' totalNodes).
Proof.
  intros Hd Hb.
  rewrite reserve_admit_unfold by assumption.
  rewrite insert_only_deletes by assumption.
  rewrite andb_false_r. unfold reserve_growth.
  rewrite insert_only_deletes by assumption.
  rewrite andb_false_r.
  destruct (_ <? _); eauto.
Qed.

Lemma reserve_admit_deletes_not_refused
      f bt m rsrvNodes availNodes inserts deletes :
  deletes <> 0 ->
  reserve_admit f bt m rsrvNodes availNodes inserts deletes <> Some Refuse.
Proof.
  intros Hd.
  destruct (Z.eq_dec (blockSize m) 0) as [Hb | Hb].
  - unfold reserve_admit. rewrite Hb. discriminate.
  - destruct (reserve_admit_deletes f bt m rsrvNodes availNodes inserts
                                    deletes Hd Hb) as (f' & t & ->).
    discriminate.
Qed.

(** ** Frame facts of lines 180-189 *)

Lemma reserve_out_clump c w : ff_clumpsize (file (reserve_out c w)) = c.
Proof.
  unfold reserve_out.
  destruct (Z.eqb_spec (ff_clumpsize (file w)) c); [assumption | reflexivity].
Qed.

Lemma reserve_out_rest c w :
  btree (reserve_out c w) = btree w /\
  hfsmp (reserve_out c w) = hfsmp w /\
  nr (reserve_out c w) = nr w /\
  extend_calls (reserve_out c w) = extend_calls w.
Proof. unfold reserve_out. destruct (_ =? _); repeat split. Qed.

Lemma reserve_out_id c w : ff_clumpsize (file w) = c -> reserve_out c w = w.
Proof. intros H. unfold reserve_out. rewrite H, Z.eqb_refl. reflexivity. Qed.

Lemma reserve_save_frame w tag data rsrvNodes w2 :
  reserve_save w tag data rsrvNodes = Some w2 ->
  file w2 = file w /\
  hfsmp w2 = hfsmp w /\
  extend_calls w2 = extend_calls w /\
  totalNodes (btree w2) = totalNodes (btree w) /\
  freeNodes (btree w2) = freeNodes (btree w).
Proof.
  unfold reserve_save. destruct (data =? 0).
  - intros [= <-]. repeat split.
  - destruct (nr_insert _ _ _ _ _); [| discriminate].
    intros [= <-]. repeat split.
Qed.

Lemma reserve_save_null w tag rsrvNodes :
  reserve_save w tag 0 rsrvNodes = Some w.
Proof. reflexivity. Qed.

(** Whatever path a call returns by, the clump size is the one on entry. *)
Lemma BTReserveSpace_clumpsize (w : world) (tag operations data err : Z)
      (w' : world) :
  BTReserveSpace w tag operations data = Some (err, w') ->
  ff_clumpsize (file w') = ff_clumpsize (file w).
Proof.
  unfold BTReserveSpace.
  destruct (_ <? _).
  - destruct (reserve_admit _ _ _ _ _ _ _) as [[| f totalNodes] |];
      [intros [= _ <-]; reflexivity | | discriminate].
    destruct (ext_err _ =? 0).
    + destruct (reserve_save _ _ _ _); [| discriminate].
      intros [= _ <-]. apply reserve_out_clump.
    + intros [= _ <-]. apply reserve_out_clump.
  - destruct (reserve_save _ _ _ _); [| discriminate].
    intros [= _ <-]. apply reserve_out_clump.
Qed.

(** C5. When the estimate exceeds the available nodes and no free block
    is left beyond the margin, a batch of inserts without deletes gets
    [ENOSPC] at once, and the whole state, with the reserve hash, the
    reserved-node counter, the clump size and the log of [ExtendBTree]
    calls, is as it was. *)
Theorem insert_only_refused_when_low (w : world) (tag operations data : Z) :
  availNodes_of (btree w) < rsrvNodes_of (btree w) operations ->
  0 < blockSize (hfsmp w) ->
  adjusted_freeblks (hfsmp w) = 0 ->
  0 < op_inserts operations ->
  op_deletes operations = 0 ->
  BTReserveSpace w tag operations data = Some (ENOSPC, w).
Proof.
  intros Hlt Hb Hadj Hi Hd.
  unfold BTReserveSpace.
  apply Z.ltb_lt in Hlt. rewrite Hlt.
  rewrite reserve_admit_unfold by lia.
  apply adjusted_freeblks_zero in Hadj; [| assumption].
  apply Z.leb_le in Hadj. rewrite Hadj.
  assert (insert_only (op_inserts operations) (op_deletes operations) = true)
    as -> by (apply insert_only_true; auto).
  reflexivity.
Qed.

(** C6. With a positive delete count the free-block checks never refuse:
    they reach the call of [ExtendBTree] whenever the volume has a block
    size, and a status other than 0 that [BTReserveSpace] returns is the
    status of that logged call. *)
Theorem deletes_never_refused (w : world) (tag operations data : Z) :
  0 < op_deletes operations ->
  reserve_admit (file w) (btree w) (hfsmp w)
                (rsrvNodes_of (btree w) operations) (availNodes_of (btree w))
                (op_inserts operations) (op_deletes operations)
  <> Some Refuse /\
  (blockSize (hfsmp w) <> 0 ->
   exists f totalNodes,
     reserve_admit (file w) (btree w) (hfsmp w)
                   (rsrvNodes_of (btree w) operations)
                   (availNodes_of (btree w))
                   (op_inserts operations) (op_deletes operations)
     = Some (Grow f totalNodes)) /\
  (forall err w',
      BTReserveSpace w tag operations data = Some (err, w') ->
      err <> 0 ->
      exists f totalNodes,
        reserve_admit (file w) (btree w) (hfsmp w)
                      (rsrvNodes_of (btree w) operations)
                      (availNodes_of (btree w))
                      (op_inserts operations) (op_deletes operations)
        = Some (Grow f totalNodes) /\
        err = ext_err (ExtendBTree f (btree w) (hfsmp w) totalNodes) /\
        extend_calls w'
        = extend_calls w ++ [(totalNodes, ff_clumpsize f)]).
Proof.
  intros Hd.
  assert (op_deletes operations <> 0) as Hd0 by lia.
  split; [apply reserve_admit_deletes_not_refused; assumption |].
  split; [apply reserve_admit_deletes; assumption |].
  intros err w'. unfold BTReserveSpace.
  pose proof (reserve_admit_deletes_not_refused
                (file w) (btree w) (hfsmp w)
                (rsrvNodes_of (btree w) operations) (availNodes_of (btree w))
                (op_inserts operations) _ Hd0) as Hnr.
  destruct (_ <? _).
  - destruct (reserve_admit _ _ _ _ _ _ _) as [[| f totalNodes] |];
      [congruence | | discriminate].
    destruct (Z.eqb_spec (ext_err (ExtendBTree f (btree w) (hfsmp w)
                                               totalNodes)) 0).
    + destruct (reserve_save _ _ _ _); [| discriminate].
      intros [= <- _] ?. congruence.
    + intros [= <- <-] _. exists f, totalNodes.
      split; [reflexivity |]. split; [reflexivity |].
      apply reserve_out_rest.
  - destruct (reserve_save _ _ _ _); [| discriminate].
    intros [= <- _] ?. congruence.
Qed.

(** C7. When the call of [ExtendBTree] fails, [BTReserveSpace] returns
    its status as it is; the tree is left as [ExtendBTree] left it, so
    its reserved-node counter is not raised, the reserve hash and the
    slots are untouched, and the clump size is the one on entry. *)
Theorem extension_failure_verbatim
        (w : world) (tag operations data : Z) (f : FCB) (totalNodes : Z) :
  availNodes_of (btree w) < rsrvNodes_of (btree w) operations ->
  reserve_admit (file w) (btree w) (hfsmp w)
                (rsrvNodes_of (btree w) operations) (availNodes_of (btree w))
                (op_inserts operations) (op_deletes operations)
  = Some (Grow f totalNodes) ->
  ext_err (ExtendBTree f (btree w) (hfsmp w) totalNodes) <> 0 ->
  exists w',
    BTReserveSpace w tag operations data
    = Some (ext_err (ExtendBTree f (btree w) (hfsmp w) totalNodes), w') /\
    btree w' = ext_btree (ExtendBTree f (btree w) (hfsmp w) totalNodes) /\
    (reservedNodes (ext_btree (ExtendBTree f (btree w) (hfsmp w) totalNodes))
     = reservedNodes (btree w) ->
     reservedNodes (btree w') = reservedNodes (btree w)) /\
    nr w' = nr w /\
    ff_clumpsize (file w') = ff_clumpsize (file w) /\
    extend_calls w' = extend_calls w ++ [(totalNodes, ff_clumpsize f)].
Proof.
  intros Hlt Hadm Herr.
  unfold BTReserveSpace.
  apply Z.ltb_lt in Hlt. rewrite Hlt, Hadm.
  destruct (Z.eqb_spec (ext_err (ExtendBTree f (btree w) (hfsmp w)
                                             totalNodes)) 0);
    [contradiction |].
  eexists. split; [reflexivity |].
  destruct (reserve_out_rest
              (ff_clumpsize (file w))
              (mkWorld
                 (ext_file (ExtendBTree f (btree w) (hfsmp w) totalNodes))
                 (ext_btree (ExtendBTree f (btree w) (hfsmp w) totalNodes))
                 (ext_hfsmp (ExtendBTree f (btree w) (hfsmp w) totalNodes))
                 (nr w)
                 (extend_calls w ++ [(totalNodes, ff_clumpsize f)])))
    as (Hbt & _ & Hnr & Hcalls).
  rewrite Hbt, Hnr, Hcalls, reserve_out_clump. simpl.
  repeat split; auto.
Qed.

Lemma reserve_save_hfsmp w m tag data rsrvNodes :
  reserve_save (set_hfsmp m w) tag data rsrvNodes
  = set_hfsmp m <$> reserve_save w tag data rsrvNodes.
Proof.
  unfold reserve_save. destruct (data =? 0); [reflexivity |]. simpl.
  destruct (nr_insert _ _ _ _ _); reflexivity.
Qed.

(** With enough nodes the call is lines 180-189 alone. *)
Lemma BTReserveSpace_enough w tag operations data :
  rsrvNodes_of (btree w) operations <= availNodes_of (btree w) ->
  BTReserveSpace w tag operations data
  = (fun w2 => (0, w2))
      <$> reserve_save w tag data (rsrvNodes_of (btree w) operations).
Proof.
  intros Hle. unfold BTReserveSpace.
  destruct (Z.ltb_spec (availNodes_of (btree w))
                       (rsrvNodes_of (btree w) operations)); [lia |].
  destruct (reserve_save _ _ _ _) as [w2 |] eqn:Hs; [| reflexivity].
  simpl. apply reserve_save_frame in Hs as (Hf & _).
  rewrite reserve_out_id by (rewrite Hf; reflexivity). reflexivity.
Qed.

(** C9. When the estimate is at most the free nodes less the reserved
    ones, and that difference is in the range of an [int] (line 123 keeps
    the 32-bit difference in an [int]), [BTReserveSpace] does only what
    lines 180-189 do: it returns 0, calls [ExtendBTree] not at all, leaves
    the total node count, the file and the volume as they were, and its
    result does not depend on the volume. *)
Theorem enough_nodes_no_extension (w : world) (tag operations data : Z) :
  is_int (freeNodes (btree w) - reservedNodes (btree w)) ->
  rsrvNodes_of (btree w) operations
  <= freeNodes (btree w) - reservedNodes (btree w) ->
  availNodes_of (btree w) = freeNodes (btree w) - reservedNodes (btree w) /\
  BTReserveSpace w tag operations data
  = (fun w2 => (0, w2))
      <$> reserve_save w tag data (rsrvNodes_of (btree w) operations) /\
  (forall err w',
      BTReserveSpace w tag operations data = Some (err, w') ->
      err = 0 /\
      extend_calls w' = extend_calls w /\
      totalNodes (btree w') = totalNodes (btree w) /\
      file w' = file w /\
      hfsmp w' = hfsmp w) /\
  (forall m,
      BTReserveSpace (set_hfsmp m w) tag operations data
      = (fun r => (fst r, set_hfsmp m (snd r)))
          <$> BTReserveSpace w tag operations data) /\
  (data = 0 -> BTReserveSpace w tag operations data = Some (0, w)).
Proof.
  intros Hfit Hle.
  pose proof (availNodes_exact (btree w) Hfit) as Hav.
  rewrite <- Hav in Hle.
  split; [exact Hav |].
  split; [apply BTReserveSpace_enough; assumption |].
  split; [| split].
  - intros err w'. rewrite BTReserveSpace_enough by assumption.
    destruct (reserve_save _ _ _ _) as [w2 |] eqn:Hs; [| discriminate].
    simpl. intros [= <- <-].
    apply reserve_save_frame in Hs as (Hf & Hm & Hc & Ht & _).
    auto.
  - intros m.
    rewrite (BTReserveSpace_enough (set_hfsmp m w)) by exact Hle.
    rewrite BTReserveSpace_enough by assumption.
    simpl btree. rewrite reserve_save_hfsmp.
    destruct (reserve_save _ _ _ _); reflexivity.
  - intros ->. rewrite BTReserveSpace_enough by assumption.
    rewrite reserve_save_null. reflexivity.
Qed.

(** ** The growth used for the extension *)

(** C2. When the clump size in blocks exceeds the free blocks left
    beyond the margin and the call of [ExtendBTree] is reached, the clump
    size at that call is the free blocks left beyond the margin times the
    block size, less than the clump size on entry; the blocks of the
    missing nodes, [((rsrvNodes - availNodes) * nodeSize) / blockSize],
    only decide the refusal of a batch of inserts without deletes. *)
Theorem growth_shrunk_to_free_blocks
        (f : FCB) (bt : BTreeControlBlock) (m : hfsmount)
        (rsrvNodes availNodes inserts deletes : Z)
        (f' : FCB) (totalNodes : Z) :
  0 < blockSize m ->
  is_u32 (ff_clumpsize f) ->
  adjusted_freeblks m < ff_clumpsize f / blockSize m ->
  reserve_admit f bt m rsrvNodes availNodes inserts deletes
  = Some (Grow f' totalNodes) ->
  ff_clumpsize f' = adjusted_freeblks m * blockSize m /\
  ff_clumpsize f' < ff_clumpsize f /\
  (insert_only inserts deletes = true ->
   shortfall_blocks bt m rsrvNodes availNodes <= adjusted_freeblks m).
Proof.
  intros Hb Hc Hreq.
  rewrite reserve_admit_unfold by lia.
  destruct (_ && insert_only _ _); [discriminate |].
  unfold reserve_growth.
  destruct (Z.ltb_spec (adjusted_freeblks m) (ff_clumpsize f / blockSize m));
    [| lia].
  destruct (Z.ltb_spec (adjusted_freeblks m)
                       (shortfall_blocks bt m rsrvNodes availNodes)) as [Hs | Hs];
    simpl.
  - destruct (insert_only inserts deletes) eqn:Hio; [discriminate |].
    intros [= <- _]. simpl.
    pose proof (adjusted_freeblks_nonneg m).
    pose proof (Z.mul_div_le (ff_clumpsize f) (blockSize m) Hb).
    assert (adjusted_freeblks m * blockSize m < ff_clumpsize f) by nia.
    rewrite to_u32_small by (unfold is_u32 in *; nia).
    repeat split; [assumption | discriminate].
  - intros [= <- _]. simpl.
    pose proof (adjusted_freeblks_nonneg m).
    pose proof (Z.mul_div_le (ff_clumpsize f) (blockSize m) Hb).
    assert (adjusted_freeblks m * blockSize m < ff_clumpsize f) by nia.
    rewrite to_u32_small by (unfold is_u32 in *; nia).
    repeat split; [assumption | intros _; assumption].
Qed.

(** ** The reserve hash *)

Lemma nr_is_true btvp tag r :
  nr_is btvp tag r = true <-> nr_tag r = tag /\ nr_btvp r = btvp.
Proof. unfold nr_is. rewrite andb_true_iff, !Z.eqb_eq. tauto. Qed.

(** The loop finds a slot of the chain with the key it looks for. *)
Lemma nr_lookup_found mem btvp tag chain a :
  nr_lookup mem btvp tag chain = Some (Some a) ->
  a ∈ chain /\ exists r, mem !! a = Some r /\ nr_is btvp tag r = true.
Proof.
  induction chain as [| x rest IH]; simpl; [discriminate |].
  destruct (mem !! x) as [r |] eqn:Hx; [| discriminate].
  destruct (nr_is btvp tag r) eqn:Hr.
  - intros [= ->]. split; [left | eauto].
  - intros H. destruct (IH H) as [Hin Hex]. split; [right |]; assumption.
Qed.

(** The loop finds nothing only when no slot of the chain has the key. *)
Lemma nr_lookup_none mem btvp tag chain :
  nr_lookup mem btvp tag chain = Some None ->
  forall a r, a ∈ chain -> mem !! a = Some r -> nr_is btvp tag r = false.
Proof.
  induction chain as [| x rest IH]; simpl; intros H a r Hin Ha.
  - inversion Hin.
  - destruct (mem !! x) as [rx |] eqn:Hx; [| discriminate].
    destruct (nr_is btvp tag rx) eqn:Hr; [discriminate |].
    apply elem_of_cons in Hin as [-> | Hin].
    + congruence.
    + eapply IH; eauto.
Qed.

(** On a chain of valid slots the loop does not fault. *)
Lemma nr_lookup_total mem btvp tag chain :
  (forall a, a ∈ chain -> is_Some (mem !! a)) ->
  is_Some (nr_lookup mem btvp tag chain).
Proof.
  induction chain as [| x rest IH]; simpl; intros Hv; [eauto |].
  destruct (Hv x) as [r ->]; [left |].
  destruct (nr_is btvp tag r); [eauto |].
  apply IH. intros a Ha. apply Hv. right. assumption.
Qed.

(** Where no slot of the chain has the key, the loop finds nothing. *)
Lemma nr_lookup_absent mem btvp tag chain :
  (forall a, a ∈ chain -> exists r, mem !! a = Some r /\ nr_is btvp tag r = false) ->
  nr_lookup mem btvp tag chain = Some None.
Proof.
  induction chain as [| x rest IH]; simpl; intros Hv; [reflexivity |].
  destruct (Hv x) as (r & -> & ->); [left |].
  apply IH. intros a Ha. apply Hv. right. assumption.
Qed.

Lemma nr_chain_unlink nrp tbl ins dels mem i :
  nr_chain (mkNRState (nr_unlink nrp tbl) mem ins dels) i
  = filter (fun a => a ≠ nrp) (default [] (tbl !! i)).
Proof.
  unfold nr_chain, nr_unlink. simpl. rewrite lookup_fmap.
  destruct (tbl !! i); reflexivity.
Qed.

Lemma nr_chain_push tbl mem ins dels i x chain j :
  nr_chain (mkNRState (<[i := x :: chain]> tbl) mem ins dels) j
  = if decide (i = j) then x :: chain else default [] (tbl !! j).
Proof.
  unfold nr_chain. simpl. rewrite lookup_insert.
  destruct (decide (i = j)); reflexivity.
Qed.

(** A hash without chains is well formed. *)
Lemma nr_wf_empty mem ins dels : nr_wf (mkNRState ∅ mem ins dels).
Proof.
  assert (forall i, nr_chain (mkNRState ∅ mem ins dels) i = []) as Hc
      by (intros i; unfold nr_chain; simpl; rewrite lookup_empty; reflexivity).
  constructor.
  - intros i a. rewrite Hc. inversion 1.
  - intros i. rewrite Hc. constructor.
  - intros i a r. rewrite Hc. inversion 1.
  - intros btvp tag a b _ [[i Ha] _]. rewrite Hc in Ha. inversion Ha.
Qed.

(** Well-formedness only looks at the chains and at the keys of the linked
    slots: a change of the memory that leaves the chains alone and, in
    each linked slot, keeps the key or clears the tag, preserves it. *)
Lemma nr_wf_keys s s' :
  nr_wf s ->
  nr_hashtbl s' = nr_hashtbl s ->
  (forall a r, nr_linked s a -> nr_mem s !! a = Some r ->
               exists r', nr_mem s' !! a = Some r' /\
                          (nr_tag r' = 0 \/
                           (nr_tag r' = nr_tag r /\ nr_btvp r' = nr_btvp r))) ->
  nr_wf s'.
Proof.
  intros [Hv Ho Hb Hu] Htbl Hmem.
  assert (forall i, nr_chain s' i = nr_chain s i) as Hc
      by (intros i; unfold nr_chain; rewrite Htbl; reflexivity).
  assert (forall i a, a ∈ nr_chain s i ->
                      exists r r', nr_mem s !! a = Some r /\
                                   nr_mem s' !! a = Some r' /\
                                   (nr_tag r' = 0 \/
                                    (nr_tag r' = nr_tag r /\
                                     nr_btvp r' = nr_btvp r))) as Hk.
  { intros i a Hi. destruct (Hv i a Hi) as [r Hr].
    destruct (Hmem a r (ex_intro _ i Hi) Hr) as (r' & Hr' & Hk).
    eauto. }
  assert (forall btvp tag a, tag <> 0 -> nr_record s' btvp tag a ->
                             nr_record s btvp tag a) as Hrec.
  { intros btvp tag a Ht [[i Hi] (r' & Hr' & Htag & Hbt)].
    rewrite Hc in Hi. split; [exists i; assumption |].
    destruct (Hk i a Hi) as (r & r'' & Hr & Hr'' & Hkey).
    rewrite Hr' in Hr''. injection Hr'' as <-.
    exists r. split; [assumption |].
    destruct Hkey as [H0 | [H1 H2]]; [congruence | split; congruence]. }
  constructor.
  - intros i a Hi. rewrite Hc in Hi.
    destruct (Hk i a Hi) as (r & r' & _ & Hr' & _). eauto.
  - intros i. rewrite Hc. apply Ho.
  - intros i a r' Hi Hr' Ht. rewrite Hc in Hi.
    destruct (Hk i a Hi) as (r & r'' & Hr & Hr'' & Hkey).
    rewrite Hr' in Hr''. injection Hr'' as <-.
    destruct Hkey as [H0 | [H1 H2]]; [contradiction |].
    rewrite H1, H2. apply (Hb i a r Hi Hr). congruence.
  - intros btvp tag a b Ht Ha Hb'. eapply Hu; eauto.
Qed.

(** What [nr_insert] does when the key is already in its bucket. *)
Lemma nr_insert_merge s tag btvp nrp nodecnt tmp_nrp r :
  nr_lookup (nr_mem s) btvp tag (nr_chain s (NR_HASH btvp tag))
  = Some (Some tmp_nrp) ->
  nr_mem s !! nrp = Some r ->
  exists t,
    <[nrp := set_nr_tag 0 r]> (nr_mem s) !! tmp_nrp = Some t /\
    nr_insert s tag btvp nrp nodecnt
    = Some (set_nr_mem
              (<[tmp_nrp := set_nr_nodecnt (to_int (nr_nodecnt t + nodecnt)) t]>
                 (<[nrp := set_nr_tag 0 r]> (nr_mem s))) s).
Proof.
  intros Hl Hr. unfold nr_insert. rewrite Hl, Hr.
  apply nr_lookup_found in Hl as (_ & t0 & Ht0 & _).
  destruct (decide (nrp = tmp_nrp)) as [-> | Hne].
  - rewrite lookup_insert_eq. eauto.
  - rewrite lookup_insert_ne by assumption. rewrite Ht0. eauto.
Qed.

(** What [nr_insert] does when the key is not in its bucket. *)
Lemma nr_insert_new s tag btvp nrp nodecnt :
  nr_lookup (nr_mem s) btvp tag (nr_chain s (NR_HASH btvp tag)) = Some None ->
  is_Some (nr_mem s !! nrp) ->
  nr_insert s tag btvp nrp nodecnt
  = Some (mkNRState
            (<[NR_HASH btvp tag := nrp :: nr_chain s (NR_HASH btvp tag)]>
               (nr_hashtbl s))
            (<[nrp := mkNR nodecnt 0 btvp tag]> (nr_mem s))
            (to_int (nrinserts s + 1))
            (nrdeletes s)).
Proof. intros Hl [r Hr]. unfold nr_insert. rewrite Hl, Hr. reflexivity. Qed.

(** [nr_insert] keeps the hash well formed when it is given a slot that is
    not linked. *)
Lemma nr_insert_wf s tag btvp nrp nodecnt s' :
  nr_wf s ->
  ~ nr_linked s nrp ->
  nr_insert s tag btvp nrp nodecnt = Some s' ->
  nr_wf s'.
Proof.
  intros Hwf Hfresh Hins.
  destruct (nr_lookup (nr_mem s) btvp tag (nr_chain s (NR_HASH btvp tag)))
    as [[tmp_nrp |] |] eqn:Hl.
  - (* merged into the record found *)
    destruct (nr_mem s !! nrp) as [r |] eqn:Hr;
      [| unfold nr_insert in Hins; rewrite Hl, Hr in Hins; discriminate].
    destruct (nr_insert_merge s tag btvp nrp nodecnt tmp_nrp r Hl Hr)
      as (t & Ht & Heq).
    rewrite Heq in Hins. injection Hins as <-.
    apply (nr_wf_keys s); [assumption | reflexivity |].
    intros a ra _ Ha. simpl.
    destruct (decide (tmp_nrp = a)) as [<- | Hta].
    + rewrite lookup_insert_eq. eexists. split; [reflexivity |]. simpl.
      destruct (decide (nrp = tmp_nrp)) as [-> | Hne].
      * rewrite lookup_insert_eq in Ht. injection Ht as <-. left. reflexivity.
      * rewrite lookup_insert_ne in Ht by assumption.
        rewrite Ha in Ht. injection Ht as <-. right. split; reflexivity.
    + rewrite lookup_insert_ne by assumption.
      destruct (decide (nrp = a)) as [<- | Hna].
      * rewrite lookup_insert_eq. eexists. split; [reflexivity |].
        left. reflexivity.
      * rewrite lookup_insert_ne by assumption. exists ra.
        split; [assumption |]. right. split; reflexivity.
  - (* a new record at the head of the bucket *)
    destruct (nr_mem s !! nrp) as [r |] eqn:Hr;
      [| unfold nr_insert in Hins; rewrite Hl, Hr in Hins; discriminate].
    rewrite nr_insert_new in Hins by eauto. injection Hins as <-.
    destruct Hwf as [Hv Ho Hb Hu].
    assert (forall j, nrp ∉ nr_chain s j) as Hnot
        by (intros j Hj; apply Hfresh; exists j; assumption).
    assert (forall j a,
               a ∈ nr_chain
                 (mkNRState
                    (<[NR_HASH btvp tag := nrp :: nr_chain s (NR_HASH btvp tag)]>
                       (nr_hashtbl s))
                    (<[nrp := mkNR nodecnt 0 btvp tag]> (nr_mem s))
                    (to_int (nrinserts s + 1)) (nrdeletes s)) j ->
               (a = nrp /\ j = NR_HASH btvp tag) \/
               (a <> nrp /\ a ∈ nr_chain s j)) as Hin.
    { intros j a. rewrite nr_chain_push.
      destruct (decide (NR_HASH btvp tag = j)) as [<- | Hj].
      - intros [-> | Ha]%elem_of_cons; [left; auto |].
        right. split; [| assumption]. intros ->. exact (Hnot _ Ha).
      - intros Ha. right. split; [| assumption]. intros ->. exact (Hnot _ Ha). }
    constructor.
    + intros j a Ha. simpl.
      destruct (Hin j a Ha) as [[-> _] | [Hne Ha']].
      * rewrite lookup_insert_eq. eauto.
      * rewrite lookup_insert_ne by auto. eapply Hv; eauto.
    + intros j. rewrite nr_chain_push.
      destruct (decide (NR_HASH btvp tag = j)); [| apply Ho].
      constructor; [apply Hnot | apply Ho].
    + intros j a ra Ha. simpl.
      destruct (Hin j a Ha) as [[-> ->] | [Hne Ha']].
      * rewrite lookup_insert_eq. intros [= <-] _. reflexivity.
      * rewrite lookup_insert_ne by auto. intros Hra. eapply Hb; eauto.
    + assert (forall b0 t0 a, t0 <> 0 -> a <> nrp ->
                nr_record
                  (mkNRState
                     (<[NR_HASH btvp tag := nrp :: nr_chain s (NR_HASH btvp tag)]>
                        (nr_hashtbl s))
                     (<[nrp := mkNR nodecnt 0 btvp tag]> (nr_mem s))
                     (to_int (nrinserts s + 1)) (nrdeletes s)) b0 t0 a ->
                nr_record s b0 t0 a /\ (t0 = tag -> b0 = btvp -> False)) as Hold.
      { intros b0 t0 a Ht0 Hne [[j Hj] (ra & Hra & Htag & Hbt)].
        simpl in Hra. rewrite lookup_insert_ne in Hra by auto.
        destruct (Hin j a Hj) as [[-> _] | [_ Ha']]; [contradiction |].
        split; [split; [exists j; assumption | eauto] |].
        intros -> ->.
        assert (NR_HASH (nr_btvp ra) (nr_tag ra) = j) as Hj'
            by (eapply Hb; eauto; congruence).
        rewrite Hbt, Htag in Hj'. subst j.
        pose proof (nr_lookup_none _ _ _ _ Hl a ra Ha' Hra) as Hno.
        assert (nr_is btvp tag ra = true) by (apply nr_is_true; auto).
        congruence. }
      assert (forall b0 t0,
                nr_record
                  (mkNRState
                     (<[NR_HASH btvp tag := nrp :: nr_chain s (NR_HASH btvp tag)]>
                        (nr_hashtbl s))
                     (<[nrp := mkNR nodecnt 0 btvp tag]> (nr_mem s))
                     (to_int (nrinserts s + 1)) (nrdeletes s)) b0 t0 nrp ->
                t0 = tag /\ b0 = btvp) as Hnew.
      { intros b0 t0 [_ (ra & Hra & Htag & Hbt)].
        simpl in Hra. rewrite lookup_insert_eq in Hra. injection Hra as <-.
        simpl in *. auto. }
      intros b0 t0 a b Ht0 Ha Hb'.
      destruct (decide (a = nrp)) as [-> | Hane];
        destruct (decide (b = nrp)) as [-> | Hbne]; [reflexivity | | |].
      * destruct (Hnew _ _ Ha) as [-> ->].
        destruct (Hold _ _ _ Ht0 Hbne Hb') as [_ Hf]. exfalso. auto.
      * destruct (Hnew _ _ Hb') as [-> ->].
        destruct (Hold _ _ _ Ht0 Hane Ha) as [_ Hf]. exfalso. auto.
      * destruct (Hold _ _ _ Ht0 Hane Ha) as [Ha' _].
        destruct (Hold _ _ _ Ht0 Hbne Hb') as [Hb'' _].
        eapply Hu; eauto.
  - unfold nr_insert in Hins. rewrite Hl in Hins. discriminate.
Qed.

(** A cleared slot: [nr_delete] reports 0 nodes and changes nothing. *)
Lemma nr_delete_cleared s tag btvp nrp r :
  nr_mem s !! nrp = Some r -> nr_tag r = 0 ->
  nr_delete s tag btvp nrp = Some (0, s).
Proof. intros Hr Ht. unfold nr_delete. rewrite Hr, Ht. reflexivity. Qed.

(** The slot of the caller's own record: [nr_delete] unlinks and zeroes it
    and reports its count. *)
Lemma nr_delete_record s tag btvp nrp r :
  nr_mem s !! nrp = Some r -> nr_tag r = tag -> nr_btvp r = btvp -> tag <> 0 ->
  nr_delete s tag btvp nrp
  = Some (nr_nodecnt r,
          mkNRState (nr_unlink nrp (nr_hashtbl s))
                    (<[nrp := nr_zero]> (nr_mem s))
                    (nrinserts s) (to_int (nrdeletes s + 1))).
Proof.
  intros Hr Ht Hb Hne. unfold nr_delete. rewrite Hr, Ht, Hb.
  destruct (Z.eqb_spec tag 0); [contradiction |].
  rewrite !Z.eqb_refl. reflexivity.
Qed.

(** [nr_delete] keeps the hash well formed. *)
Lemma nr_delete_wf s tag btvp nrp nodecnt s' :
  nr_wf s -> nr_delete s tag btvp nrp = Some (nodecnt, s') -> nr_wf s'.
Proof.
  intros Hwf. unfold nr_delete.
  destruct (nr_mem s !! nrp) as [r |] eqn:Hr; [| discriminate].
  destruct (nr_tag r =? 0); [intros [= _ <-]; assumption |].
  destruct (_ || _); [discriminate |].
  intros [= _ <-]. destruct Hwf as [Hv Ho Hb Hu].
  assert (forall j a,
             a ∈ nr_chain
               (mkNRState (nr_unlink nrp (nr_hashtbl s))
                          (<[nrp := nr_zero]> (nr_mem s))
                          (nrinserts s) (to_int (nrdeletes s + 1))) j ->
             a <> nrp /\ a ∈ nr_chain s j) as Hin.
  { intros j a. rewrite nr_chain_unlink.
    intros [? ?]%list_elem_of_filter. auto. }
  constructor.
  - intros j a Ha. destruct (Hin j a Ha) as [Hne Ha']. simpl.
    rewrite lookup_insert_ne by auto. eapply Hv; eauto.
  - intros j. rewrite nr_chain_unlink. apply NoDup_filter, Ho.
  - intros j a ra Ha. destruct (Hin j a Ha) as [Hne Ha']. simpl.
    rewrite lookup_insert_ne by auto. intros Hra. eapply Hb; eauto.
  - assert (forall b0 t0 a,
               nr_record
                 (mkNRState (nr_unlink nrp (nr_hashtbl s))
                            (<[nrp := nr_zero]> (nr_mem s))
                            (nrinserts s) (to_int (nrdeletes s + 1))) b0 t0 a ->
               nr_record s b0 t0 a) as Hold.
    { intros b0 t0 a [[j Hj] (ra & Hra & Hk)].
      destruct (Hin j a Hj) as [Hne Ha']. simpl in Hra.
      rewrite lookup_insert_ne in Hra by auto.
      split; [exists j; assumption | eauto]. }
    intros b0 t0 a b Ht0 Ha Hb'. eapply Hu; eauto.
Qed.

(** After [nr_delete] took a slot out, the slot is not linked. *)
Lemma nr_unlink_not_linked nrp tbl mem ins dels :
  ~ nr_linked (mkNRState (nr_unlink nrp tbl) mem ins dels) nrp.
Proof.
  intros [j Hj]. rewrite nr_chain_unlink in Hj.
  apply list_elem_of_filter in Hj as [Hne _]. contradiction.
Qed.

(** [nr_update] keeps the hash well formed. *)
Lemma nr_update_wf s tag btvp nodecnt s' :
  nr_wf s -> nr_update s tag btvp nodecnt = Some s' -> nr_wf s'.
Proof.
  intros Hwf. unfold nr_update.
  destruct (nr_lookup _ _ _ _) as [[nrp |] |]; [| intros [= <-]; assumption
                                               | discriminate].
  destruct (nr_mem s !! nrp) as [r |] eqn:Hr; [| discriminate].
  intros [= <-]. apply (nr_wf_keys s); [assumption | reflexivity |].
  intros a ra _ Ha. simpl.
  destruct (decide (nrp = a)) as [<- | Hne].
  - rewrite lookup_insert_eq. eexists. split; [reflexivity |].
    rewrite Hr in Ha. injection Ha as <-. right. split; reflexivity.
  - rewrite lookup_insert_ne by assumption. exists ra.
    split; [assumption |]. right. split; reflexivity.
Qed.

(** In a well-formed hash, a key without a record is not found, and a key
    with a record is found at that record. *)
Lemma nr_lookup_no_record s btvp tag :
  nr_wf s ->
  (forall a, ~ nr_record s btvp tag a) ->
  nr_lookup (nr_mem s) btvp tag (nr_chain s (NR_HASH btvp tag)) = Some None.
Proof.
  intros Hwf Hno. apply nr_lookup_absent. intros a Ha.
  destruct (wf_valid s Hwf _ a Ha) as [r Hr]. exists r.
  split; [assumption |].
  destruct (nr_is btvp tag r) eqn:Hk; [| reflexivity].
  apply nr_is_true in Hk as [Ht Hb]. exfalso. apply (Hno a).
  split; [eexists; eassumption | eauto].
Qed.

Lemma nr_lookup_record s btvp tag a :
  nr_wf s -> tag <> 0 -> nr_record s btvp tag a ->
  nr_lookup (nr_mem s) btvp tag (nr_chain s (NR_HASH btvp tag))
  = Some (Some a).
Proof.
  intros Hwf Ht Hrec.
  destruct (nr_lookup_total (nr_mem s) btvp tag
                            (nr_chain s (NR_HASH btvp tag))) as [[b |] Hl].
  - intros x Hx. eapply wf_valid; eauto.
  - rewrite Hl. do 2 f_equal.
    apply nr_lookup_found in Hl as (Hb & rb & Hrb & Hk).
    apply nr_is_true in Hk as [Hk1 Hk2].
    apply (wf_unique s Hwf btvp tag); [assumption | | assumption].
    split; [eexists; eassumption | eauto].
  - exfalso. destruct Hrec as [[i Hi] (r & Hr & Hk1 & Hk2)].
    assert (NR_HASH (nr_btvp r) (nr_tag r) = i) as Hb
        by (eapply wf_bucket; eauto; congruence).
    rewrite Hk1, Hk2 in Hb. subst i.
    pose proof (nr_lookup_none _ _ _ _ Hl a r Hi Hr) as Hno.
    assert (nr_is btvp tag r = true) by (apply nr_is_true; auto).
    congruence.
Qed.

Lemma nr_record_after_unlink nrp s btvp tag a :
  nr_record (mkNRState (nr_unlink nrp (nr_hashtbl s))
                       (<[nrp := nr_zero]> (nr_mem s))
                       (nrinserts s) (to_int (nrdeletes s + 1))) btvp tag a ->
  a <> nrp /\ nr_record s btvp tag a.
Proof.
  intros [[j Hj] (ra & Hra & Hk)].
  rewrite nr_chain_unlink in Hj.
  apply list_elem_of_filter in Hj as [Hne Hj].
  simpl in Hra. rewrite lookup_insert_ne in Hra by auto.
  split; [assumption |]. split; [exists j; assumption | eauto].
Qed.

(** A first [nr_insert] for a pair without record, a second one with
    another slot, and the releases that follow. *)
Lemma nr_merge_then_release
      (s : nr_state) (tag btvp h1 h2 c1 c2 : Z) :
  nr_wf s ->
  tag <> 0 ->
  h1 <> h2 ->
  is_Some (nr_mem s !! h1) ->
  is_Some (nr_mem s !! h2) ->
  ~ nr_linked s h1 ->
  ~ nr_linked s h2 ->
  (forall a, ~ nr_record s btvp tag a) ->
  is_int (c1 + c2) ->
  exists s1 s2 s3,
    nr_insert s tag btvp h1 c1 = Some s1 /\
    nr_insert s1 tag btvp h2 c2 = Some s2 /\
    nr_wf s1 /\ nr_wf s2 /\ nr_wf s3 /\
    ~ nr_linked s1 h2 /\
    (forall a, nr_record s1 btvp tag a <-> a = h1) /\
    (forall a, nr_record s2 btvp tag a <-> a = h1) /\
    nr_hashtbl s2 = nr_hashtbl s1 /\
    nrinserts s2 = nrinserts s1 /\
    nr_mem s1 !! h1 = Some (mkNR c1 0 btvp tag) /\
    nr_mem s2 !! h1 = Some (mkNR (c1 + c2) 0 btvp tag) /\
    (exists r2, nr_mem s2 !! h2 = Some r2 /\ nr_tag r2 = 0) /\
    nr_delete s2 tag btvp h2 = Some (0, s2) /\
    nr_delete s2 tag btvp h1 = Some (c1 + c2, s3) /\
    nr_delete s3 tag btvp h1 = Some (0, s3) /\
    nr_delete s3 tag btvp h2 = Some (0, s3) /\
    (forall a, ~ nr_record s3 btvp tag a).
Proof.
  intros Hwf Htag Hne Hv1 [r2 Hr2] Hf1 Hf2 Hnone Hsum.
  (* the first call links [h1] *)
  pose proof (nr_insert_new s tag btvp h1 c1
                (nr_lookup_no_record s btvp tag Hwf Hnone) Hv1) as E1.
  set (s1 := mkNRState
               (<[NR_HASH btvp tag := h1 :: nr_chain s (NR_HASH btvp tag)]>
                  (nr_hashtbl s))
               (<[h1 := mkNR c1 0 btvp tag]> (nr_mem s))
               (to_int (nrinserts s + 1)) (nrdeletes s)) in *.
  pose proof (nr_insert_wf s tag btvp h1 c1 s1 Hwf Hf1 E1) as Hwf1.
  assert (nr_mem s1 !! h1 = Some (mkNR c1 0 btvp tag)) as Hm1
      by (simpl; apply lookup_insert_eq).
  assert (nr_record s1 btvp tag h1) as Hrec1.
  { split; [| eauto].
    exists (NR_HASH btvp tag). unfold s1. rewrite nr_chain_push.
    destruct (decide (NR_HASH btvp tag = NR_HASH btvp tag)); [left | congruence]. }
  assert (~ nr_linked s1 h2) as Hf2'.
  { intros [j Hj]. unfold s1 in Hj. rewrite nr_chain_push in Hj.
    destruct (decide (NR_HASH btvp tag = j)) as [<- | _].
    - apply elem_of_cons in Hj as [-> | Hj]; [congruence |].
      apply Hf2. eexists. exact Hj.
    - apply Hf2. exists j. exact Hj. }
  assert (nr_mem s1 !! h2 = Some r2) as Hm12
      by (simpl; rewrite lookup_insert_ne by assumption; assumption).
  (* the second call merges into it *)
  destruct (nr_insert_merge s1 tag btvp h2 c2 h1 r2
              (nr_lookup_record s1 btvp tag h1 Hwf1 Htag Hrec1) Hm12)
    as (t & Ht & E2).
  rewrite lookup_insert_ne in Ht by auto. rewrite Hm1 in Ht.
  injection Ht as <-.
  unfold set_nr_nodecnt in E2. simpl in E2.
  rewrite (to_int_small (c1 + c2)) in E2 by assumption.
  set (s2 := set_nr_mem
               (<[h1 := mkNR (c1 + c2) 0 btvp tag]>
                  (<[h2 := set_nr_tag 0 r2]>
                     (<[h1 := mkNR c1 0 btvp tag]> (nr_mem s)))) s1) in *.
  pose proof (nr_insert_wf s1 tag btvp h2 c2 s2 Hwf1 Hf2' E2) as Hwf2.
  assert (nr_mem s2 !! h1 = Some (mkNR (c1 + c2) 0 btvp tag)) as Hm2
      by (simpl; apply lookup_insert_eq).
  assert (nr_mem s2 !! h2 = Some (set_nr_tag 0 r2)) as Hm22
      by (simpl; rewrite lookup_insert_ne by auto; apply lookup_insert_eq).
  assert (nr_record s2 btvp tag h1) as Hrec2.
  { split; [| eauto]. destruct Hrec1 as [[j Hj] _]. exists j. exact Hj. }
  (* the release of [h1] *)
  pose proof (nr_delete_record s2 tag btvp h1 _ Hm2 eq_refl eq_refl Htag) as E3.
  simpl nr_nodecnt in E3.
  set (s3 := mkNRState (nr_unlink h1 (nr_hashtbl s2))
                       (<[h1 := nr_zero]> (nr_mem s2))
                       (nrinserts s2) (to_int (nrdeletes s2 + 1))) in *.
  exists s1, s2, s3.
  split; [exact E1 |]. split; [exact E2 |].
  split; [exact Hwf1 |]. split; [exact Hwf2 |].
  split; [exact (nr_delete_wf s2 tag btvp h1 _ s3 Hwf2 E3) |].
  split; [exact Hf2' |].
  split.
  { intros a. split; [| intros ->; exact Hrec1].
    intros Ha. exact (wf_unique s1 Hwf1 btvp tag a h1 Htag Ha Hrec1). }
  split.
  { intros a. split; [| intros ->; exact Hrec2].
    intros Ha. exact (wf_unique s2 Hwf2 btvp tag a h1 Htag Ha Hrec2). }
  split; [reflexivity |]. split; [reflexivity |].
  split; [exact Hm1 |]. split; [exact Hm2 |].
  split; [eauto |].
  split; [exact (nr_delete_cleared s2 tag btvp h2 _ Hm22 eq_refl) |].
  split; [exact E3 |].
  split.
  { apply (nr_delete_cleared s3 tag btvp h1 nr_zero); [| reflexivity].
    simpl. apply lookup_insert_eq. }
  split.
  { apply (nr_delete_cleared s3 tag btvp h2 (set_nr_tag 0 r2)); [| reflexivity].
    unfold s3. simpl nr_mem at 1. rewrite lookup_insert_ne by auto.
    exact Hm22. }
  intros a Ha. apply nr_record_after_unlink in Ha as [Hna Ha].
  apply Hna. exact (wf_unique s2 Hwf2 btvp tag a h1 Htag Ha Hrec2).
Qed.

Lemma nr_step_wf s s' : nr_wf s -> nr_step s s' -> nr_wf s'.
Proof.
  intros Hwf [tag btvp nrp nodecnt Hf Hi | tag btvp nrp nodecnt Hd
              | tag btvp nodecnt Hu | a r Hf ->].
  - eapply nr_insert_wf; eauto.
  - eapply nr_delete_wf; eauto.
  - eapply nr_update_wf; eauto.
  - apply (nr_wf_keys s); [assumption | reflexivity |].
    intros b rb Hb Hrb. simpl.
    rewrite lookup_insert_ne by (intros ->; contradiction).
    exists rb. split; [assumption |]. right. split; reflexivity.
Qed.

(** Every state of the hash is well formed. *)
Lemma nr_reachable_wf mem s : nr_reachable mem s -> nr_wf s.
Proof.
  unfold nr_reachable. intros H.
  eapply (rtc_ind_r (fun s0 => nr_wf s0)); [| | exact H].
  - apply nr_wf_empty.
  - intros y z _ Hstep IH. eapply nr_step_wf; eauto.
Qed.

(** C4. At any time, in every state that calls of the hash routines reach
    from the setup, no two records of the hash have the same tree and
    owner.  When the owner [tag] has no record for the tree [btvp], a
    first [nr_insert] of [c1] nodes with the slot [h1] and a second one of
    [c2] nodes with another slot [h2] leave one record for the pair, the
    slot [h1] with count [c1 + c2]: the second call adds no link and clears
    the tag of [h2].  [nr_delete] of [h1] then reports [c1 + c2] and
    removes the record; [nr_delete] of [h2], before or after, and
    [nr_delete] of [h1] once more report 0 and change nothing. *)
Theorem one_record_per_owner
        (mem : gmap Z nreserve) (s : nr_state) (tag btvp : Z) :
  nr_reachable mem s ->
  tag <> 0 ->
  (forall a b, nr_record s btvp tag a -> nr_record s btvp tag b -> a = b) /\
  (forall h1 h2 c1 c2,
      h1 <> h2 ->
      is_Some (nr_mem s !! h1) ->
      is_Some (nr_mem s !! h2) ->
      ~ nr_linked s h1 ->
      ~ nr_linked s h2 ->
      (forall a, ~ nr_record s btvp tag a) ->
      is_int (c1 + c2) ->
      exists s1 s2 s3,
        nr_insert s tag btvp h1 c1 = Some s1 /\
        nr_insert s1 tag btvp h2 c2 = Some s2 /\
        nr_reachable mem s1 /\ nr_reachable mem s2 /\ nr_reachable mem s3 /\
        (forall a, nr_record s1 btvp tag a <-> a = h1) /\
        (forall a, nr_record s2 btvp tag a <-> a = h1) /\
        nr_hashtbl s2 = nr_hashtbl s1 /\
        nrinserts s2 = nrinserts s1 /\
        nr_mem s1 !! h1 = Some (mkNR c1 0 btvp tag) /\
        nr_mem s2 !! h1 = Some (mkNR (c1 + c2) 0 btvp tag) /\
        (exists r2, nr_mem s2 !! h2 = Some r2 /\ nr_tag r2 = 0) /\
        nr_delete s2 tag btvp h2 = Some (0, s2) /\
        nr_delete s2 tag btvp h1 = Some (c1 + c2, s3) /\
        nr_delete s3 tag btvp h1 = Some (0, s3) /\
        nr_delete s3 tag btvp h2 = Some (0, s3) /\
        (forall a, ~ nr_record s3 btvp tag a)).
Proof.
  intros Hreach Htag.
  pose proof (nr_reachable_wf mem s Hreach) as Hwf.
  split; [intros a b; apply (wf_unique s Hwf); assumption |].
  intros h1 h2 c1 c2 Hne Hv1 Hv2 Hf1 Hf2 Hnone Hsum.
  destruct (nr_merge_then_release s tag btvp h1 h2 c1 c2
              Hwf Htag Hne Hv1 Hv2 Hf1 Hf2 Hnone Hsum)
    as (s1 & s2 & s3 & E1 & E2 & _ & _ & _ & Hf2' & Hr1 & Hr2 & Ht & Hi
        & Hm1 & Hm2 & Hc & D2 & D1 & D1' & D2' & Hno).
  assert (nr_reachable mem s1) as R1
      by (eapply rtc_r;
          [exact Hreach | exact (step_insert s s1 tag btvp h1 c1 Hf1 E1)]).
  assert (nr_reachable mem s2) as R2
      by (eapply rtc_r;
          [exact R1 | exact (step_insert s1 s2 tag btvp h2 c2 Hf2' E2)]).
  assert (nr_reachable mem s3) as R3
      by (eapply rtc_r;
          [exact R2 | exact (step_delete s2 s3 tag btvp h1 (c1 + c2) D1)]).
  exists s1, s2, s3.
  repeat (split; [assumption |]). assumption.
Qed.

(** C8. Releasing a slot whose tag is cleared gives 0 freed nodes and
    leaves the whole state, with the tree's reserved-node counter, as it
    was; so does releasing it again. *)
Theorem release_cleared_slot (w : world) (tag data : Z) (r : nreserve) :
  nr_mem (nr w) !! data = Some r ->
  nr_tag r = 0 ->
  nr_delete (nr w) tag (fileRefNum (btree w)) data = Some (0, nr w) /\
  BTReleaseReserve w tag data = Some (0, w) /\
  (BTReleaseReserve w tag data
     ≫= fun r1 => BTReleaseReserve (snd r1) tag data) = Some (0, w).
Proof.
  intros Hr Ht.
  pose proof (nr_delete_cleared (nr w) tag (fileRefNum (btree w)) data r Hr Ht)
    as Hd.
  assert (BTReleaseReserve w tag data = Some (0, w)) as Hrel.
  { unfold BTReleaseReserve. rewrite Hd. simpl. destruct w; reflexivity. }
  split; [exact Hd |]. split; [exact Hrel |].
  rewrite Hrel. simpl. exact Hrel.
Qed.

(** ** Calls return *)

(** In a well-formed hash [nr_insert] with a valid slot does not fault. *)
Lemma nr_insert_total s tag btvp nrp nodecnt :
  nr_wf s -> is_Some (nr_mem s !! nrp) ->
  is_Some (nr_insert s tag btvp nrp nodecnt).
Proof.
  intros Hwf [r Hr].
  destruct (nr_lookup_total (nr_mem s) btvp tag
                            (nr_chain s (NR_HASH btvp tag))) as [[tmp |] Hl].
  - intros a Ha. eapply wf_valid; eauto.
  - destruct (nr_insert_merge s tag btvp nrp nodecnt tmp r Hl Hr)
      as (t & _ & ->). eauto.
  - rewrite nr_insert_new by eauto. eauto.
Qed.

Lemma reserve_save_total w tag data rsrvNodes :
  data = 0 \/ (nr_wf (nr w) /\ is_Some (nr_mem (nr w) !! data)) ->
  is_Some (reserve_save w tag data rsrvNodes).
Proof.
  intros [-> | [Hwf Hv]]; [rewrite reserve_save_null; eauto |].
  unfold reserve_save. destruct (data =? 0); [eauto |].
  destruct (nr_insert_total
              (nr w) tag
              (fileRefNum (set_reservedNodes
                             (to_u32 (reservedNodes (btree w) + rsrvNodes))
                             (btree w)))
              data rsrvNodes Hwf Hv) as [s' ->].
  eauto.
Qed.

(** A call returns when the volume has a block size and [data] is null or
    a valid slot, the hash being well formed. *)
Lemma BTReserveSpace_returns w tag operations data :
  blockSize (hfsmp w) <> 0 ->
  data = 0 \/ (nr_wf (nr w) /\ is_Some (nr_mem (nr w) !! data)) ->
  exists err w', BTReserveSpace w tag operations data = Some (err, w').
Proof.
  intros Hb Hd. unfold BTReserveSpace.
  destruct (_ <? _).
  - rewrite reserve_admit_unfold by assumption.
    destruct (_ && _); [eauto |].
    destruct (reserve_growth _ _ _ _ _ _ _ _) as [| f totalNodes]; [eauto |].
    destruct (ext_err _ =? 0); [| eauto].
    match goal with
    | |- context [reserve_save ?w1 tag data ?r] =>
        destruct (reserve_save_total w1 tag data r Hd) as [w2 ->]
    end.
    eauto.
  - destruct (reserve_save_total
                w tag data (rsrvNodes_of (btree w) operations) Hd) as [w2 ->].
    eauto.
Qed.

(** C3. Whatever path a call of [BTReserveSpace] returns by (at once with
    enough nodes, either [ENOSPC], after [ExtendBTree] succeeded or
    failed), the file's clump size on return is its clump size on entry;
    and the call does return when the volume has a block size and [data]
    is null or a valid slot. *)
Theorem clumpsize_restored (w : world) (tag operations data : Z) :
  (forall err w',
      BTReserveSpace w tag operations data = Some (err, w') ->
      ff_clumpsize (file w') = ff_clumpsize (file w)) /\
  (blockSize (hfsmp w) <> 0 ->
   data = 0 \/ (nr_wf (nr w) /\ is_Some (nr_mem (nr w) !! data)) ->
   exists err w',
     BTReserveSpace w tag operations data = Some (err, w') /\
     ff_clumpsize (file w') = ff_clumpsize (file w)).
Proof.
  split; [intros err w'; apply BTReserveSpace_clumpsize |].
  intros Hb Hd.
  destruct (BTReserveSpace_returns w tag operations data Hb Hd)
    as (err & w' & E).
  exists err, w'. split; [exact E |].
  exact (BTReserveSpace_clumpsize w tag operations data err w' E).
Qed.

(** ** More on the estimate and on the free-space checks *)

Lemma to_u32_mod_sub a b : to_u32 (to_u32 a - b) = to_u32 (a - b).
Proof. unfold to_u32. apply Zminus_mod_idemp_l. Qed.

Lemma to_u32_mod_add a b : to_u32 (to_u32 a + b) = to_u32 (a + b).
Proof. unfold to_u32. apply Zplus_mod_idemp_l. Qed.

(** X1. For the counts that an operations word carries without a negative
    delete count and a height of at most 21847, the estimate is at least
    one node more than the inserts, is [1 + i] when the height is at most
    2 (a delete then costs nothing), and does not decrease when the height
    or one of the counts grows. *)
Theorem estimate_bounds (h h' i i' d d' : Z) :
  h <= h' -> h' <= 21847 ->
  0 <= i -> i <= i' -> i' <= 65535 ->
  0 <= d -> d <= d' -> d' <= 32767 ->
  1 + i <= estimate (clamp_height h) i d /\
  (h <= 2 -> estimate (clamp_height h) i d = 1 + i) /\
  estimate (clamp_height h) i d <= estimate (clamp_height h') i' d'.
Proof.
  intros Hh Hh' Hi Hii Hi' Hd Hdd Hd'.
  rewrite !clamp_height_max, !estimate_wrap.
  rewrite (to_int_small (1 + d * (Z.max h 2 - 2) + i * (Z.max h 2 - 1)))
    by (apply counts_fit; lia).
  rewrite (to_int_small (1 + d' * (Z.max h' 2 - 2) + i' * (Z.max h' 2 - 1)))
    by (apply counts_fit; lia).
  assert (2 <= Z.max h 2) as Hm by lia.
  assert (Z.max h 2 <= Z.max h' 2) as Hmm by lia.
  split; [nia |]. split.
  - intros H2. replace (Z.max h 2) with 2 by lia. lia.
  - generalize dependent (Z.max h' 2). intros m' Hm'.
    generalize dependent (Z.max h 2). intros m Hm Hmm.
    intros. nia.
Qed.

(** X2. With a block size that is not 0, a byte cap and an allocation
    limit in the range of their type, the blocks kept back are the smaller
    of a twentieth of the allocation limit and of the byte cap in blocks,
    the latter never below one block. *)
Theorem rsrvblks_closed_form (m : hfsmount) :
  0 < blockSize m ->
  is_u32 HFS_BT_MAXRESERVE ->
  is_u32 (allocLimit m) ->
  rsrvblks_of m
  = Z.min (allocLimit m / 20) (Z.max 1 (HFS_BT_MAXRESERVE / blockSize m)) /\
  0 <= rsrvblks_of m <= allocLimit m / 20.
Proof.
  intros Hb Hmax Hal.
  assert (rsrvblks_of m
          = Z.min (allocLimit m / 20)
                  (Z.max 1 (HFS_BT_MAXRESERVE / blockSize m))) as E.
  { unfold rsrvblks_of.
    rewrite (to_u32_small HFS_BT_MAXRESERVE) by assumption.
    replace (allocLimit m * 5 / 100) with (allocLimit m / 20)
      by (change 100 with (20 * 5); rewrite Z.div_mul_cancel_r; lia).
    unfold is_u32, UINT32_MAX in *.
    assert (0 <= allocLimit m / 20 <= allocLimit m) as Hq.
    { split; [apply Z.div_pos; lia |].
      apply Z.div_le_upper_bound; lia. }
    rewrite to_u32_small by (unfold is_u32, UINT32_MAX; lia).
    destruct (Z.ltb_spec HFS_BT_MAXRESERVE (blockSize m)) as [Hlt | Hge].
    - rewrite (Z.div_small HFS_BT_MAXRESERVE) by lia. reflexivity.
    - assert (1 <= HFS_BT_MAXRESERVE / blockSize m)
        by (apply Z.div_le_lower_bound; lia).
      rewrite Z.max_r by lia. reflexivity. }
  split; [exact E |].
  rewrite E. unfold is_u32 in Hal.
  assert (0 <= allocLimit m / 20) by (apply Z.div_pos; lia).
  lia.
Qed.

(** X3. When nodes are missing and the numbers stay in the range of an
    [int], the total handed to [ExtendBTree] is the tree's total plus the
    missing nodes, and one more when that exceeds the map bits: it always
    exceeds the tree's total. *)
Theorem new_totalNodes_exact (bt : BTreeControlBlock) (rsrvNodes availNodes : Z) :
  availNodes < rsrvNodes ->
  is_u32 (totalNodes bt) ->
  totalNodes bt + (rsrvNodes - availNodes) < INT_MAX ->
  new_totalNodes bt rsrvNodes availNodes
  = totalNodes bt + (rsrvNodes - availNodes)
    + (if to_int (CalcMapBits bt) <? totalNodes bt + (rsrvNodes - availNodes)
       then 1 else 0) /\
  totalNodes bt < new_totalNodes bt rsrvNodes availNodes.
Proof.
  intros Hlt Ht Hfit.
  unfold new_totalNodes, is_u32, UINT32_MAX, INT_MAX in *.
  rewrite to_u32_mod_sub.
  replace (rsrvNodes + totalNodes bt - availNodes)
    with (totalNodes bt + (rsrvNodes - availNodes)) by ring.
  rewrite (to_u32_small (totalNodes bt + (rsrvNodes - availNodes)))
    by (unfold is_u32, UINT32_MAX; lia).
  rewrite (to_int_small (totalNodes bt + (rsrvNodes - availNodes)))
    by (unfold is_int, INT_MIN, INT_MAX; lia).
  destruct (_ <? _).
  - rewrite to_int_small by (unfold is_int, INT_MIN, INT_MAX; lia). lia.
  - lia.
Qed.

Lemma app_one_ne {A} (l : list A) (x : A) : l ++ [x] <> l.
Proof.
  intros H. apply (f_equal length) in H.
  rewrite length_app in H. simpl in H. lia.
Qed.

(** The free-space checks refuse exactly a batch of inserts without
    deletes that finds no free block beyond the blocks kept back, or fewer
    of them than both the clump size and the missing nodes take. *)
Lemma reserve_admit_refuse_iff f bt m rsrvNodes availNodes inserts deletes :
  blockSize m <> 0 ->
  (reserve_admit f bt m rsrvNodes availNodes inserts deletes = Some Refuse <->
   insert_only inserts deletes = true /\
   (to_u32 (hfs_freeblks m 0) <= rsrvblks_of m \/
    (adjusted_freeblks m < ff_clumpsize f / blockSize m /\
     adjusted_freeblks m < shortfall_blocks bt m rsrvNodes availNodes))).
Proof.
  intros Hb. rewrite reserve_admit_unfold by assumption.
  unfold reserve_growth.
  destruct (Z.leb_spec (to_u32 (hfs_freeblks m 0)) (rsrvblks_of m)) as [H1 | H1];
    destruct (insert_only inserts deletes); simpl.
  - split; [auto | reflexivity].
  - rewrite andb_false_r.
    split; [destruct (_ <? _); discriminate | intros [? _]; discriminate].
  - destruct (Z.ltb_spec (adjusted_freeblks m) (ff_clumpsize f / blockSize m))
      as [H2 | H2].
    + destruct (Z.ltb_spec (adjusted_freeblks m)
                           (shortfall_blocks bt m rsrvNodes availNodes))
        as [H3 | H3]; simpl.
      * split; [auto | reflexivity].
      * split; [discriminate | intros [_ [? | [_ ?]]]; lia].
    + split; [discriminate | intros [_ [? | [? _]]]; lia].
  - rewrite andb_false_r.
    split; [destruct (_ <? _); discriminate | intros [? _]; discriminate].
Qed.

(** A call that reaches [ExtendBTree] leaves its entry in the log. *)
Lemma BTReserveSpace_grow_logged w tag operations data f totalNodes err w' :
  availNodes_of (btree w) < rsrvNodes_of (btree w) operations ->
  reserve_admit (file w) (btree w) (hfsmp w)
                (rsrvNodes_of (btree w) operations) (availNodes_of (btree w))
                (op_inserts operations) (op_deletes operations)
  = Some (Grow f totalNodes) ->
  BTReserveSpace w tag operations data = Some (err, w') ->
  extend_calls w' = extend_calls w ++ [(totalNodes, ff_clumpsize f)].
Proof.
  intros Hlt Hadm. unfold BTReserveSpace.
  destruct (Z.ltb_spec (availNodes_of (btree w))
                       (rsrvNodes_of (btree w) operations)); [| lia].
  rewrite Hadm.
  destruct (ext_err _ =? 0).
  - destruct (reserve_save _ _ _ _) as [w2 |] eqn:Hs; [| discriminate].
    intros [= _ <-].
    destruct (reserve_out_rest (ff_clumpsize (file w)) w2) as (_ & _ & _ & ->).
    apply reserve_save_frame in Hs as (_ & _ & -> & _). reflexivity.
  - intros [= _ <-].
    match goal with
    | |- extend_calls (reserve_out ?c ?w1) = _ =>
        destruct (reserve_out_rest c w1) as (_ & _ & _ & ->)
    end.
    reflexivity.
Qed.

(** X4. When nodes are missing and the volume has a block size,
    [BTReserveSpace] returns [ENOSPC] with the state as it was exactly for
    a batch of inserts without deletes that finds either no free block
    beyond the blocks kept back, or fewer of them than both the clump size
    and the missing nodes take. *)
Theorem refused_exactly_when (w : world) (tag operations data : Z) :
  availNodes_of (btree w) < rsrvNodes_of (btree w) operations ->
  blockSize (hfsmp w) <> 0 ->
  (BTReserveSpace w tag operations data = Some (ENOSPC, w) <->
   insert_only (op_inserts operations) (op_deletes operations) = true /\
   (to_u32 (hfs_freeblks (hfsmp w) 0) <= rsrvblks_of (hfsmp w) \/
    (adjusted_freeblks (hfsmp w)
     < ff_clumpsize (file w) / blockSize (hfsmp w) /\
     adjusted_freeblks (hfsmp w)
     < shortfall_blocks (btree w) (hfsmp w)
                        (rsrvNodes_of (btree w) operations)
                        (availNodes_of (btree w))))).
Proof.
  intros Hlt Hb.
  rewrite <- (reserve_admit_refuse_iff (file w) (btree w) (hfsmp w)
                (rsrvNodes_of (btree w) operations) (availNodes_of (btree w))
                (op_inserts operations) (op_deletes operations) Hb).
  split.
  - intros E.
    destruct (reserve_admit (file w) (btree w) (hfsmp w)
                (rsrvNodes_of (btree w) operations) (availNodes_of (btree w))
                (op_inserts operations) (op_deletes operations))
      as [[| f totalNodes] |] eqn:Hadm; [reflexivity | |].
    + exfalso.
      pose proof (BTReserveSpace_grow_logged w tag operations data f totalNodes
                    ENOSPC w Hlt Hadm E) as Hc.
      symmetry in Hc. exact (app_one_ne _ _ Hc).
    + exfalso. unfold reserve_admit in Hadm.
      destruct (Z.eqb_spec (blockSize (hfsmp w)) 0); [contradiction |].
      destruct (_ <=? _); [destruct (insert_only _ _) |]; discriminate.
  - intros Hadm. unfold BTReserveSpace.
    destruct (Z.ltb_spec (availNodes_of (btree w))
                         (rsrvNodes_of (btree w) operations)); [| lia].
    rewrite Hadm. reflexivity.
Qed.

(** ** What a call saves *)

Lemma reserve_save_reserved w tag data rsrvNodes w2 :
  reserve_save w tag data rsrvNodes = Some w2 ->
  reservedNodes (btree w2)
  = (if data =? 0 then reservedNodes (btree w)
     else to_u32 (reservedNodes (btree w) + rsrvNodes)) /\
  fileRefNum (btree w2) = fileRefNum (btree w) /\
  (if data =? 0 then nr w2 = nr w
   else nr_insert (nr w) tag (fileRefNum (btree w)) data rsrvNodes
        = Some (nr w2)).
Proof.
  unfold reserve_save. destruct (data =? 0).
  - intros [= <-]. auto.
  - simpl. destruct (nr_insert _ _ _ _ _) as [s |]; [| discriminate].
    intros [= <-]. auto.
Qed.

(** X5. When [ExtendBTree] succeeds, [BTReserveSpace] returns 0 (given a
    null [data] or a valid slot of a well-formed hash); the tree and the
    volume are as [ExtendBTree] left them, but for the reserved-node
    counter, which a persistent request raises by the estimate on top of
    what [ExtendBTree] left; the clump size is the one on entry. *)
Theorem extension_success_saved
        (w : world) (tag operations data : Z) (f : FCB) (newTotal : Z) :
  availNodes_of (btree w) < rsrvNodes_of (btree w) operations ->
  reserve_admit (file w) (btree w) (hfsmp w)
                (rsrvNodes_of (btree w) operations) (availNodes_of (btree w))
                (op_inserts operations) (op_deletes operations)
  = Some (Grow f newTotal) ->
  ext_err (ExtendBTree f (btree w) (hfsmp w) newTotal) = 0 ->
  data = 0 \/ (nr_wf (nr w) /\ is_Some (nr_mem (nr w) !! data)) ->
  exists w',
    BTReserveSpace w tag operations data = Some (0, w') /\
    extend_calls w' = extend_calls w ++ [(newTotal, ff_clumpsize f)] /\
    ff_clumpsize (file w') = ff_clumpsize (file w) /\
    hfsmp w' = ext_hfsmp (ExtendBTree f (btree w) (hfsmp w) newTotal) /\
    totalNodes (btree w')
    = totalNodes
        (ext_btree (ExtendBTree f (btree w) (hfsmp w) newTotal)) /\
    freeNodes (btree w')
    = freeNodes (ext_btree (ExtendBTree f (btree w) (hfsmp w) newTotal)) /\
    reservedNodes (btree w')
    = (if data =? 0
       then reservedNodes
              (ext_btree (ExtendBTree f (btree w) (hfsmp w) newTotal))
       else to_u32
              (reservedNodes
                 (ext_btree (ExtendBTree f (btree w) (hfsmp w) newTotal))
               + rsrvNodes_of (btree w) operations)).
Proof.
  intros Hlt Hadm Herr Hd.
  unfold BTReserveSpace.
  destruct (Z.ltb_spec (availNodes_of (btree w))
                       (rsrvNodes_of (btree w) operations)); [| lia].
  rewrite Hadm. cbv zeta. rewrite Herr. simpl (0 =? 0).
  match goal with
  | |- context [reserve_save ?w1 tag data ?r] =>
      destruct (reserve_save_total w1 tag data r Hd) as [w2 Hs]
  end.
  rewrite Hs. eexists. split; [reflexivity |].
  destruct (reserve_out_rest (ff_clumpsize (file w)) w2)
    as (Hbt & Hm & _ & Hc).
  rewrite Hbt, Hm, Hc, reserve_out_clump.
  pose proof (reserve_save_frame _ _ _ _ _ Hs) as (_ & Hm2 & Hc2 & Ht & Hf).
  pose proof (reserve_save_reserved _ _ _ _ _ Hs) as (Hr & _).
  rewrite Hm2, Hc2, Ht, Hf, Hr. simpl. repeat split; reflexivity.
Qed.

(** X6. A call that does not save, for a null [data] or for a status
    other than 0, leaves the reserve hash and the slots alone; it returns
    the entry state as a whole, or the file (its clump size put back),
    tree and volume exactly as a logged call of [ExtendBTree] left them. *)
Theorem nothing_saved (w : world) (tag operations data err : Z) (w' : world) :
  BTReserveSpace w tag operations data = Some (err, w') ->
  data = 0 \/ err <> 0 ->
  nr w' = nr w /\
  (w' = w \/
   exists f totalNodes,
     extend_calls w' = extend_calls w ++ [(totalNodes, ff_clumpsize f)] /\
     err = ext_err (ExtendBTree f (btree w) (hfsmp w) totalNodes) /\
     btree w' = ext_btree (ExtendBTree f (btree w) (hfsmp w) totalNodes) /\
     hfsmp w' = ext_hfsmp (ExtendBTree f (btree w) (hfsmp w) totalNodes)).
Proof.
  unfold BTReserveSpace. intros E Hd.
  assert (forall w1 w2,
             reserve_save w1 tag data (rsrvNodes_of (btree w) operations)
             = Some w2 ->
             data = 0 -> w2 = w1) as Hnull.
  { intros w1 w2 Hs ->. rewrite reserve_save_null in Hs. congruence. }
  destruct (_ <? _).
  - destruct (reserve_admit _ _ _ _ _ _ _) as [[| f totalNodes] |];
      [injection E as <- <-; auto | | discriminate].
    destruct (Z.eqb_spec (ext_err (ExtendBTree f (btree w) (hfsmp w)
                                               totalNodes)) 0) as [He | He].
    + destruct (reserve_save _ _ _ _) as [w2 |] eqn:Hs; [| discriminate].
      injection E as <- <-.
      destruct Hd as [Hd | Hd]; [| contradiction].
      rewrite (Hnull _ _ Hs Hd).
      match goal with
      | |- context [reserve_out ?c ?w1] =>
          destruct (reserve_out_rest c w1) as (Hbt & Hm & Hnr & Hc)
      end.
      rewrite Hnr, Hbt, Hm, Hc. simpl.
      split; [reflexivity |]. right. exists f, totalNodes. auto.
    + injection E as <- <-.
      match goal with
      | |- context [reserve_out ?c ?w1] =>
          destruct (reserve_out_rest c w1) as (Hbt & Hm & Hnr & Hc)
      end.
      rewrite Hnr, Hbt, Hm, Hc. simpl.
      split; [reflexivity |]. right. exists f, totalNodes. auto.
  - destruct (reserve_save _ _ _ _) as [w2 |] eqn:Hs; [| discriminate].
    injection E as <- <-.
    destruct Hd as [Hd | Hd]; [| contradiction].
    rewrite (Hnull _ _ Hs Hd), reserve_out_id by reflexivity. auto.
Qed.

(** ** More on the reserve hash *)

Lemma filter_ne_absent (h : Z) (l : list Z) :
  h ∉ l -> filter (fun a => a ≠ h) l = l.
Proof.
  induction l as [| x l IH]; [reflexivity |].
  intros Hn. apply not_elem_of_cons in Hn as [Hne Hn].
  rewrite filter_cons_True by congruence. rewrite IH by assumption.
  reflexivity.
Qed.

(** Linking a slot that was not linked and unlinking it again gives back
    every chain. *)
Lemma nr_chain_push_unlink s h k mem' ins' dels' i :
  ~ nr_linked s h ->
  nr_chain (mkNRState
              (nr_unlink h (<[k := h :: nr_chain s k]> (nr_hashtbl s)))
              mem' ins' dels') i
  = nr_chain s i.
Proof.
  intros Hf. rewrite nr_chain_unlink. rewrite lookup_insert.
  assert (forall j, h ∉ nr_chain s j) as Hn
      by (intros j Hj; apply Hf; exists j; exact Hj).
  destruct (decide (k = i)) as [<- | Hne]; simpl.
  - rewrite filter_cons_False by (intros H; apply H; reflexivity).
    apply filter_ne_absent, Hn.
  - apply (filter_ne_absent h (nr_chain s i)), Hn.
Qed.

(** The two ways of [nr_insert]: a new record in the caller's slot when
    the owner has none for the tree, or else the count added to the record
    there is and the tag of the caller's slot cleared. *)
Lemma nr_insert_cases s tag btvp nrp nodecnt s' :
  nr_wf s -> tag <> 0 -> ~ nr_linked s nrp ->
  nr_insert s tag btvp nrp nodecnt = Some s' ->
  ((forall a, ~ nr_record s btvp tag a) /\
   nr_record s' btvp tag nrp /\
   nr_mem s' !! nrp = Some (mkNR nodecnt 0 btvp tag) /\
   nrinserts s' = to_int (nrinserts s + 1))
  \/
  (exists a r0,
      a <> nrp /\
      nr_record s btvp tag a /\
      nr_mem s !! a = Some r0 /\
      nr_record s' btvp tag a /\
      nr_mem s' !! a
      = Some (set_nr_nodecnt (to_int (nr_nodecnt r0 + nodecnt)) r0) /\
      (exists r, nr_mem s' !! nrp = Some r /\ nr_tag r = 0) /\
      nr_hashtbl s' = nr_hashtbl s /\
      nrinserts s' = nrinserts s).
Proof.
  intros Hwf Htag Hf Hins.
  destruct (nr_lookup (nr_mem s) btvp tag (nr_chain s (NR_HASH btvp tag)))
    as [[tmp |] |] eqn:Hl.
  - right.
    destruct (nr_mem s !! nrp) as [r |] eqn:Hr;
      [| unfold nr_insert in Hins; rewrite Hl, Hr in Hins; discriminate].
    destruct (nr_insert_merge s tag btvp nrp nodecnt tmp r Hl Hr)
      as (t & Ht & Heq).
    rewrite Heq in Hins. injection Hins as <-.
    apply nr_lookup_found in Hl as (Hin & t0 & Ht0 & Hk).
    apply nr_is_true in Hk as [Hk1 Hk2].
    assert (tmp <> nrp) as Hne
        by (intros ->; apply Hf; eexists; exact Hin).
    rewrite lookup_insert_ne in Ht by auto. rewrite Ht0 in Ht.
    injection Ht as <-.
    exists tmp, t0.
    split; [exact Hne |].
    split; [split; [eexists; exact Hin | eauto] |].
    split; [exact Ht0 |].
    split.
    { split; [eexists; exact Hin |]. simpl.
      rewrite lookup_insert_eq. eexists. split; [reflexivity |]. auto. }
    split; [simpl; apply lookup_insert_eq |].
    split.
    { exists (set_nr_tag 0 r). simpl.
      rewrite lookup_insert_ne by auto. rewrite lookup_insert_eq. auto. }
    split; reflexivity.
  - left.
    destruct (nr_mem s !! nrp) as [r |] eqn:Hr;
      [| unfold nr_insert in Hins; rewrite Hl, Hr in Hins; discriminate].
    rewrite nr_insert_new in Hins by eauto. injection Hins as <-.
    split.
    { intros a Ha.
      pose proof (nr_lookup_record s btvp tag a Hwf Htag Ha). congruence. }
    split.
    { split.
      - exists (NR_HASH btvp tag). rewrite nr_chain_push.
        destruct (decide (NR_HASH btvp tag = NR_HASH btvp tag));
          [left | congruence].
      - simpl. rewrite lookup_insert_eq. eauto. }
    split; [simpl; apply lookup_insert_eq | reflexivity].
  - unfold nr_insert in Hins. rewrite Hl in Hins. discriminate.
Qed.

(** A call that returns 0 for a [data] that is not null went through
    [nr_insert] for the tree as it is on return. *)
Lemma BTReserveSpace_saved w tag operations data w' :
  BTReserveSpace w tag operations data = Some (0, w') ->
  data <> 0 ->
  nr_insert (nr w) tag (fileRefNum (btree w')) data
            (rsrvNodes_of (btree w) operations)
  = Some (nr w').
Proof.
  unfold BTReserveSpace. intros E Hd.
  assert (forall w1 w2,
             reserve_save w1 tag data (rsrvNodes_of (btree w) operations)
             = Some w2 ->
             nr_insert (nr w1) tag (fileRefNum (btree w2)) data
                       (rsrvNodes_of (btree w) operations)
             = Some (nr w2)) as Hsave.
  { intros w1 w2 Hs.
    apply reserve_save_reserved in Hs as (_ & Hfr & Hi).
    destruct (Z.eqb_spec data 0); [contradiction |].
    rewrite Hfr. exact Hi. }
  destruct (_ <? _).
  - destruct (reserve_admit _ _ _ _ _ _ _) as [[| f newTotal] |];
      [discriminate | | discriminate].
    destruct (Z.eqb_spec (ext_err (ExtendBTree f (btree w) (hfsmp w)
                                               newTotal)) 0) as [He | He].
    + destruct (reserve_save _ _ _ _) as [w2 |] eqn:Hs; [| discriminate].
      injection E as <-.
      destruct (reserve_out_rest (ff_clumpsize (file w)) w2)
        as (-> & _ & -> & _).
      exact (Hsave _ _ Hs).
    + injection E as E _. congruence.
  - destruct (reserve_save _ _ _ _) as [w2 |] eqn:Hs; [| discriminate].
    injection E as <-.
    destruct (reserve_out_rest (ff_clumpsize (file w)) w2)
      as (-> & _ & -> & _).
    exact (Hsave _ _ Hs).
Qed.

(** X7. After a persistent call that returned 0, made with a slot that was
    not linked, the hash is still well formed and the owner has a record
    for the tree: the caller's slot with the estimate as count when it had
    none, or else the record it had, with the estimate added to its count,
    the tag of the caller's slot being cleared. *)
Theorem persistent_reserve_recorded
        (w : world) (tag operations data : Z) (w' : world) :
  BTReserveSpace w tag operations data = Some (0, w') ->
  data <> 0 ->
  tag <> 0 ->
  nr_wf (nr w) ->
  ~ nr_linked (nr w) data ->
  nr_wf (nr w') /\
  exists a r,
    nr_record (nr w') (fileRefNum (btree w')) tag a /\
    nr_mem (nr w') !! a = Some r /\
    ((a = data /\
      nr_nodecnt r = rsrvNodes_of (btree w) operations /\
      forall b, ~ nr_record (nr w) (fileRefNum (btree w')) tag b)
     \/
     (a <> data /\
      exists r0 rd,
        nr_record (nr w) (fileRefNum (btree w')) tag a /\
        nr_mem (nr w) !! a = Some r0 /\
        nr_nodecnt r
        = to_int (nr_nodecnt r0 + rsrvNodes_of (btree w) operations) /\
        nr_mem (nr w') !! data = Some rd /\
        nr_tag rd = 0)).
Proof.
  intros E Hd Htag Hwf Hf.
  pose proof (BTReserveSpace_saved w tag operations data w' E Hd) as Hi.
  split; [exact (nr_insert_wf _ _ _ _ _ _ Hwf Hf Hi) |].
  destruct (nr_insert_cases _ _ _ _ _ _ Hwf Htag Hf Hi)
    as [(Hno & Hrec & Hm & _)
       | (a & r0 & Hne & Hold & Hr0 & Hrec & Hm & (rd & Hrd & Htd) & _)].
  - exists data, (mkNR (rsrvNodes_of (btree w) operations) 0
                       (fileRefNum (btree w')) tag).
    split; [exact Hrec |]. split; [exact Hm |]. left. auto.
  - exists a, (set_nr_nodecnt
                 (to_int (nr_nodecnt r0 + rsrvNodes_of (btree w) operations))
                 r0).
    split; [exact Hrec |]. split; [exact Hm |]. right.
    split; [exact Hne |]. exists r0, rd. auto.
Qed.

(** X8. Reserve and release undo each other.  With enough nodes, for an
    owner without a record for the tree and a slot that is not linked, a
    persistent [BTReserveSpace] returns 0, raises the reserved-node counter
    by the estimate and puts the record in the slot; [BTReleaseReserve] by
    the same thread then returns 0 and gives back the tree, the file, the
    volume and every chain of the hash as they were, the slot zeroed.
    [BTReleaseReserve] of that slot by another thread stops at the
    assertion. *)
Theorem reserve_release_round_trip (w : world) (tag operations data : Z) :
  rsrvNodes_of (btree w) operations <= availNodes_of (btree w) ->
  data <> 0 ->
  tag <> 0 ->
  nr_wf (nr w) ->
  is_Some (nr_mem (nr w) !! data) ->
  ~ nr_linked (nr w) data ->
  (forall a, ~ nr_record (nr w) (fileRefNum (btree w)) tag a) ->
  is_u32 (reservedNodes (btree w)) ->
  exists w1 w2,
    BTReserveSpace w tag operations data = Some (0, w1) /\
    reservedNodes (btree w1)
    = to_u32 (reservedNodes (btree w) + rsrvNodes_of (btree w) operations) /\
    nr_mem (nr w1) !! data
    = Some (mkNR (rsrvNodes_of (btree w) operations) 0
                 (fileRefNum (btree w)) tag) /\
    BTReleaseReserve w1 tag data = Some (0, w2) /\
    btree w2 = btree w /\
    file w2 = file w /\
    hfsmp w2 = hfsmp w /\
    extend_calls w2 = extend_calls w /\
    (forall i, nr_chain (nr w2) i = nr_chain (nr w) i) /\
    nr_mem (nr w2) = <[data := nr_zero]> (nr_mem (nr w)) /\
    (forall tag', tag' <> tag -> BTReleaseReserve w1 tag' data = None).
Proof.
  intros Hle Hd Htag Hwf Hv Hf Hno Hu.
  pose proof (nr_insert_new (nr w) tag (fileRefNum (btree w)) data
                (rsrvNodes_of (btree w) operations)
                (nr_lookup_no_record _ _ _ Hwf Hno) Hv) as Hins.
  assert (reserve_save w tag data (rsrvNodes_of (btree w) operations)
          = Some (set_nr
                    (mkNRState
                       (<[NR_HASH (fileRefNum (btree w)) tag :=
                            data :: nr_chain (nr w)
                                             (NR_HASH (fileRefNum (btree w)) tag)]>
                          (nr_hashtbl (nr w)))
                       (<[data := mkNR (rsrvNodes_of (btree w) operations) 0
                                       (fileRefNum (btree w)) tag]>
                          (nr_mem (nr w)))
                       (to_int (nrinserts (nr w) + 1)) (nrdeletes (nr w)))
                    (set_btree
                       (set_reservedNodes
                          (to_u32 (reservedNodes (btree w)
                                   + rsrvNodes_of (btree w) operations))
                          (btree w)) w))) as Hs.
  { unfold reserve_save. destruct (Z.eqb_spec data 0); [contradiction |].
    simpl fileRefNum. rewrite Hins. reflexivity. }
  rewrite (BTReserveSpace_enough w tag operations data Hle), Hs. simpl fmap.
  eexists. eexists.
  split; [reflexivity |].
  split; [reflexivity |].
  split; [simpl; apply lookup_insert_eq |].
  assert (forall tg,
             nr_delete
               (mkNRState
                  (<[NR_HASH (fileRefNum (btree w)) tag :=
                       data :: nr_chain (nr w)
                                        (NR_HASH (fileRefNum (btree w)) tag)]>
                     (nr_hashtbl (nr w)))
                  (<[data := mkNR (rsrvNodes_of (btree w) operations) 0
                                  (fileRefNum (btree w)) tag]>
                     (nr_mem (nr w)))
                  (to_int (nrinserts (nr w) + 1)) (nrdeletes (nr w)))
               tg (fileRefNum (btree w)) data
             = if tg =? tag
               then Some (rsrvNodes_of (btree w) operations,
                          mkNRState
                            (nr_unlink data
                               (<[NR_HASH (fileRefNum (btree w)) tag :=
                                    data :: nr_chain (nr w)
                                      (NR_HASH (fileRefNum (btree w)) tag)]>
                                  (nr_hashtbl (nr w))))
                            (<[data := nr_zero]>
                               (<[data := mkNR (rsrvNodes_of (btree w) operations)
                                               0 (fileRefNum (btree w)) tag]>
                                  (nr_mem (nr w))))
                            (to_int (nrinserts (nr w) + 1))
                            (to_int (nrdeletes (nr w) + 1)))
               else None) as Hdel.
  { intros tg. unfold nr_delete. simpl nr_mem. rewrite lookup_insert_eq.
    simpl. destruct (Z.eqb_spec tag 0); [contradiction |].
    rewrite (Z.eqb_sym tag tg). destruct (tg =? tag); [| reflexivity].
    rewrite Z.eqb_refl. reflexivity. }
  split.
  { unfold BTReleaseReserve. simpl. rewrite Hdel, Z.eqb_refl.
    instantiate (1 :=
      if rsrvNodes_of (btree w) operations =? 0
      then set_nr _ (set_nr _ (set_btree _ w))
      else set_btree _ (set_nr _ (set_nr _ (set_btree _ w)))).
    destruct (rsrvNodes_of (btree w) operations =? 0); reflexivity. }
  assert (set_reservedNodes (reservedNodes (btree w)) (btree w) = btree w)
    as Hid by (destruct (btree w); reflexivity).
  split.
  { destruct (Z.eqb_spec (rsrvNodes_of (btree w) operations) 0) as [H0 | H0];
      simpl.
    - rewrite H0, Z.add_0_r, to_u32_small by assumption. exact Hid.
    - unfold set_reservedNodes at 1. simpl.
      rewrite to_u32_mod_sub.
      replace (reservedNodes (btree w) + rsrvNodes_of (btree w) operations
               - rsrvNodes_of (btree w) operations)
        with (reservedNodes (btree w)) by ring.
      rewrite to_u32_small by assumption. exact Hid. }
  split; [destruct (_ =? 0); reflexivity |].
  split; [destruct (_ =? 0); reflexivity |].
  split; [destruct (_ =? 0); reflexivity |].
  split.
  { intros i.
    destruct (_ =? 0); simpl nr;
      apply (nr_chain_push_unlink (nr w) data); assumption. }
  split.
  { destruct (_ =? 0); simpl; apply insert_insert_eq. }
  intros tag' Hne. unfold BTReleaseReserve. simpl. rewrite Hdel.
  destruct (Z.eqb_spec tag' tag); [contradiction | reflexivity].
Qed.

(** X9. [nr_update] adds the nodes to the allocation counter of the
    owner's record for the tree, and to nothing else: the chains, the
    other slots and the count that [nr_delete] reports later are as they
    were; without such a record it changes nothing at all. *)
Theorem update_counts_allocations (s : nr_state) (tag btvp nodecnt : Z) :
  nr_wf s ->
  tag <> 0 ->
  (forall a r,
      nr_record s btvp tag a -> nr_mem s !! a = Some r ->
      exists s',
        nr_update s tag btvp nodecnt = Some s' /\
        nr_hashtbl s' = nr_hashtbl s /\
        nr_mem s' !! a
        = Some (mkNR (nr_nodecnt r) (to_int (nr_newnodes r + nodecnt))
                     btvp tag) /\
        (forall b, b <> a -> nr_mem s' !! b = nr_mem s !! b) /\
        fst <$> nr_delete s' tag btvp a = Some (nr_nodecnt r) /\
        fst <$> nr_delete s tag btvp a = Some (nr_nodecnt r)) /\
  ((forall a, ~ nr_record s btvp tag a) ->
   nr_update s tag btvp nodecnt = Some s).
Proof.
  intros Hwf Htag. split.
  - intros a r Hrec Hr.
    pose proof (nr_lookup_record s btvp tag a Hwf Htag Hrec) as Hl.
    destruct Hrec as [_ (r' & Hr' & Hk1 & Hk2)].
    rewrite Hr in Hr'. injection Hr' as <-.
    unfold nr_update. rewrite Hl, Hr.
    eexists. split; [reflexivity |].
    split; [reflexivity |].
    split.
    { simpl. rewrite lookup_insert_eq. unfold set_nr_newnodes.
      rewrite Hk1, Hk2. reflexivity. }
    split; [intros b Hb; simpl; apply lookup_insert_ne; auto |].
    split.
    + unfold nr_delete. simpl. rewrite lookup_insert_eq. simpl.
      rewrite Hk1, Hk2.
      destruct (Z.eqb_spec tag 0); [contradiction |].
      rewrite !Z.eqb_refl. reflexivity.
    + rewrite (nr_delete_record s tag btvp a r Hr Hk1 Hk2 Htag). reflexivity.
  - intros Hno. unfold nr_update.
    rewrite (nr_lookup_no_record s btvp tag Hwf Hno). reflexivity.
Qed.

(** X10. One slot handed to [nr_insert] twice without a release between:
    the second call finds the record in that very slot and clears its tag.
    The slot stays linked with the count of both calls, [nr_delete]
    reports 0 for it and leaves it linked, and the owner has no record any
    more that a later call could find. *)
Theorem same_slot_reserved_twice (s : nr_state) (tag btvp h c1 c2 : Z) :
  nr_wf s ->
  tag <> 0 ->
  is_Some (nr_mem s !! h) ->
  ~ nr_linked s h ->
  (forall a, ~ nr_record s btvp tag a) ->
  exists s1 s2,
    nr_insert s tag btvp h c1 = Some s1 /\
    nr_insert s1 tag btvp h c2 = Some s2 /\
    nr_linked s2 h /\
    nr_mem s2 !! h = Some (mkNR (to_int (c1 + c2)) 0 btvp 0) /\
    nr_delete s2 tag btvp h = Some (0, s2) /\
    (forall a, ~ nr_record s2 btvp tag a).
Proof.
  intros Hwf Htag Hv Hf Hno.
  pose proof (nr_insert_new s tag btvp h c1
                (nr_lookup_no_record s btvp tag Hwf Hno) Hv) as E1.
  set (s1 := mkNRState
               (<[NR_HASH btvp tag := h :: nr_chain s (NR_HASH btvp tag)]>
                  (nr_hashtbl s))
               (<[h := mkNR c1 0 btvp tag]> (nr_mem s))
               (to_int (nrinserts s + 1)) (nrdeletes s)) in *.
  pose proof (nr_insert_wf s tag btvp h c1 s1 Hwf Hf E1) as Hwf1.
  assert (nr_mem s1 !! h = Some (mkNR c1 0 btvp tag)) as Hm1
      by (simpl; apply lookup_insert_eq).
  assert (nr_linked s1 h) as Hl1.
  { exists (NR_HASH btvp tag). unfold s1. rewrite nr_chain_push.
    destruct (decide (NR_HASH btvp tag = NR_HASH btvp tag)); [left | congruence]. }
  assert (nr_record s1 btvp tag h) as Hrec1 by (split; [exact Hl1 | eauto]).
  destruct (nr_insert_merge s1 tag btvp h c2 h _
              (nr_lookup_record s1 btvp tag h Hwf1 Htag Hrec1) Hm1)
    as (t & Ht & E2).
  rewrite lookup_insert_eq in Ht. injection Ht as <-.
  simpl in E2.
  exists s1. eexists.
  split; [exact E1 |]. split; [exact E2 |].
  split; [exact Hl1 |].
  split; [simpl; apply lookup_insert_eq |].
  split.
  { eapply nr_delete_cleared; [simpl; apply lookup_insert_eq | reflexivity]. }
  intros a [Hla (r & Hr & Hk1 & Hk2)].
  simpl in Hr.
  destruct (decide (h = a)) as [<- | Hne].
  - rewrite lookup_insert_eq in Hr. injection Hr as <-. simpl in Hk1.
    congruence.
  - rewrite !lookup_insert_ne in Hr by assumption.
    apply Hne. symmetry.
    apply (wf_unique s1 Hwf1 btvp tag a h Htag); [| exact Hrec1].
    split; [exact Hla |]. exists r. simpl.
    rewrite lookup_insert_ne by assumption. auto.
Qed.

Lemma land_le_mask a b : 0 <= b -> 0 <= Z.land a b <= b.
Proof.
  intros Hb. apply Z.ldiff_le; [assumption |].
  apply Z.bits_inj'. intros n Hn.
  rewrite Z.ldiff_spec, Z.land_spec, Z.bits_0.
  destruct (Z.testbit a n), (Z.testbit b n); reflexivity.
Qed.

(** X11. With a mask that is not negative, [NR_HASH] gives an index from 0
    to the mask, and at any time every chain that holds a slot is one of
    those buckets: the hash never links a slot outside of the table. *)
Theorem buckets_within_mask (mem : gmap Z nreserve) (s : nr_state) :
  0 <= nr_hashmask ->
  nr_reachable mem s ->
  (forall btvp tag, 0 <= NR_HASH btvp tag <= nr_hashmask) /\
  (forall i a, a ∈ nr_chain s i -> 0 <= i <= nr_hashmask).
Proof.
  intros Hm Hreach.
  assert (forall btvp tag, 0 <= NR_HASH btvp tag <= nr_hashmask) as Hh
      by (intros; apply land_le_mask; assumption).
  split; [exact Hh |].
  unfold nr_reachable in Hreach.
  eapply (rtc_ind_r (fun s0 => forall i a, a ∈ nr_chain s0 i ->
                                           0 <= i <= nr_hashmask));
    [| | exact Hreach].
  - intros i a Ha. unfold nr_chain, BTReserveSetup in Ha. simpl in Ha.
    rewrite lookup_empty in Ha. inversion Ha.
  - intros y z _ Hstep IH i a Ha.
    destruct Hstep as [tag btvp nrp nodecnt Hf Hi | tag btvp nrp nodecnt Hd
                       | tag btvp nodecnt Hu | b r Hf ->].
    + unfold nr_insert in Hi.
      destruct (nr_lookup _ _ _ _) as [[tmp |] |]; [| | discriminate].
      * destruct (nr_mem y !! nrp); [| discriminate].
        destruct (_ !! tmp); [| discriminate].
        injection Hi as <-. exact (IH i a Ha).
      * destruct (nr_mem y !! nrp); [| discriminate].
        injection Hi as <-. rewrite nr_chain_push in Ha.
        destruct (decide (NR_HASH btvp tag = i)) as [<- | _];
          [apply Hh | exact (IH i a Ha)].
    + unfold nr_delete in Hd.
      destruct (nr_mem y !! nrp) as [r |]; [| discriminate].
      destruct (nr_tag r =? 0); [injection Hd as _ <-; exact (IH i a Ha) |].
      destruct (_ || _); [discriminate |].
      injection Hd as _ <-. rewrite nr_chain_unlink in Ha.
      apply list_elem_of_filter in Ha as [_ Ha]. exact (IH i a Ha).
    + unfold nr_update in Hu.
      destruct (nr_lookup _ _ _ _) as [[nrp |] |]; [| | discriminate].
      * destruct (nr_mem y !! nrp); [| discriminate].
        injection Hu as <-. exact (IH i a Ha).
      * injection Hu as <-. exact (IH i a Ha).
    + exact (IH i a Ha).
Qed.

(** ** The reserved-node counter and the hash *)

Lemma sumZ_ext (F G : Z -> Z) (l : list Z) :
  (forall i, i ∈ l -> G i = F i) -> sumZ G l = sumZ F l.
Proof.
  induction l as [| x l IH]; intros H; [reflexivity |].
  simpl. rewrite H by left. rewrite IH; [reflexivity |].
  intros i Hi. apply H. right. exact Hi.
Qed.

(** A change of [F] at one element of a list without repetition. *)
Lemma sumZ_point (F G : Z -> Z) (l : list Z) (k delta : Z) :
  NoDup l -> k ∈ l ->
  G k = F k + delta ->
  (forall i, i ∈ l -> i <> k -> G i = F i) ->
  sumZ G l = sumZ F l + delta.
Proof.
  induction l as [| x l IH]; intros Hnd Hk Hgk Hrest; [inversion Hk |].
  apply NoDup_cons in Hnd as [Hx Hnd]. simpl.
  apply elem_of_cons in Hk as [<- | Hk].
  - rewrite Hgk. rewrite (sumZ_ext F G l); [lia |].
    intros i Hi. apply Hrest; [right; exact Hi |].
    intros ->. contradiction.
  - rewrite (Hrest x) by (try left; intros ->; contradiction).
    rewrite IH; [lia | assumption.. |].
    intros i Hi. apply Hrest. right. exact Hi.
Qed.

Lemma sumZ_filter_ne (F : Z -> Z) (h : Z) (l : list Z) :
  NoDup l ->
  sumZ F (filter (fun a => a ≠ h) l)
  = sumZ F l - (if decide (h ∈ l) then F h else 0).
Proof.
  intros Hnd. destruct (decide (h ∈ l)) as [Hin | Hout].
  - induction l as [| x l IH]; [inversion Hin |].
    apply NoDup_cons in Hnd as [Hx Hnd].
    apply elem_of_cons in Hin as [<- | Hin].
    + rewrite filter_cons_False by (intros H; apply H; reflexivity).
      rewrite filter_ne_absent by assumption. simpl. lia.
    + rewrite filter_cons_True by (intros ->; contradiction).
      simpl. rewrite IH by assumption. lia.
  - rewrite filter_ne_absent by assumption. lia.
Qed.

Lemma to_u32_add_to_int a z : to_u32 (a + to_int z) = to_u32 (a + z).
Proof.
  unfold to_u32.
  rewrite Z.add_mod, to_int_mod, <- Z.add_mod by lia. reflexivity.
Qed.

Lemma NR_HASH_in_table btvp tag :
  0 <= nr_hashmask -> NR_HASH btvp tag ∈ seqZ 0 (nr_hashmask + 1).
Proof.
  intros Hm. apply elem_of_seqZ.
  pose proof (land_le_mask (Z.lxor (Z.shiftr btvp 8) (Z.shiftr tag 4))
                           nr_hashmask Hm) as H.
  unfold NR_HASH. lia.
Qed.

(** [nr_insert] raises what the hash holds for the tree by the count. *)
Lemma held_nodes_insert s tag btvp nrp nodecnt s' :
  nr_wf s -> tag <> 0 -> ~ nr_linked s nrp -> 0 <= nr_hashmask ->
  nr_insert s tag btvp nrp nodecnt = Some s' ->
  to_u32 (held_nodes s' btvp) = to_u32 (held_nodes s btvp + nodecnt).
Proof.
  intros Hwf Htag Hf Hm Hins.
  assert (forall j, nrp ∉ nr_chain s j) as Hnot
      by (intros j Hj; apply Hf; exists j; assumption).
  destruct (nr_lookup (nr_mem s) btvp tag (nr_chain s (NR_HASH btvp tag)))
    as [[tmp |] |] eqn:Hl.
  - destruct (nr_mem s !! nrp) as [r |] eqn:Hr;
      [| unfold nr_insert in Hins; rewrite Hl, Hr in Hins; discriminate].
    destruct (nr_insert_merge s tag btvp nrp nodecnt tmp r Hl Hr)
      as (t & Ht & Heq).
    rewrite Heq in Hins. injection Hins as <-.
    apply nr_lookup_found in Hl as (Hin & t0 & Ht0 & Hk).
    apply nr_is_true in Hk as [Hk1 Hk2].
    assert (tmp <> nrp) as Hne by (intros ->; exact (Hnot _ Hin)).
    rewrite lookup_insert_ne in Ht by auto. rewrite Ht0 in Ht.
    injection Ht as <-.
    unfold held_nodes.
    rewrite (sumZ_point
               (fun i => sumZ (slot_nodes (nr_mem s) btvp) (nr_chain s i))
               _ _ (NR_HASH btvp tag)
               (to_int (nr_nodecnt t0 + nodecnt) - nr_nodecnt t0)).
    + replace (sumZ (fun i => sumZ (slot_nodes (nr_mem s) btvp) (nr_chain s i))
                    (seqZ 0 (nr_hashmask + 1))
               + (to_int (nr_nodecnt t0 + nodecnt) - nr_nodecnt t0))
        with ((sumZ (fun i => sumZ (slot_nodes (nr_mem s) btvp) (nr_chain s i))
                    (seqZ 0 (nr_hashmask + 1)) - nr_nodecnt t0)
              + to_int (nr_nodecnt t0 + nodecnt)) by ring.
      rewrite to_u32_add_to_int. f_equal. ring.
    + apply NoDup_seqZ.
    + apply NR_HASH_in_table. assumption.
    + simpl.
      apply (sumZ_point (slot_nodes (nr_mem s) btvp) _ _ tmp);
        [apply (wf_once s Hwf) | exact Hin | |].
      * unfold slot_nodes. rewrite lookup_insert_eq, Ht0. simpl.
        rewrite Hk2, Z.eqb_refl. ring.
      * intros a Ha Hat. unfold slot_nodes.
        rewrite lookup_insert_ne by auto.
        rewrite lookup_insert_ne by (intros ->; exact (Hnot _ Ha)).
        reflexivity.
    + intros i _ Hi. simpl. apply sumZ_ext. intros a Ha. unfold slot_nodes.
      rewrite lookup_insert_ne.
      * rewrite lookup_insert_ne by (intros ->; exact (Hnot _ Ha)).
        reflexivity.
      * intros <-. apply Hi. symmetry.
        rewrite <- Hk1, <- Hk2.
        apply (wf_bucket s Hwf i tmp t0 Ha Ht0). congruence.
  - destruct (nr_mem s !! nrp) as [r |] eqn:Hr;
      [| unfold nr_insert in Hins; rewrite Hl, Hr in Hins; discriminate].
    rewrite nr_insert_new in Hins by eauto. injection Hins as <-.
    unfold held_nodes. f_equal.
    apply (sumZ_point
             (fun i => sumZ (slot_nodes (nr_mem s) btvp) (nr_chain s i))
             _ _ (NR_HASH btvp tag));
      [apply NoDup_seqZ | apply NR_HASH_in_table; assumption | |].
    + rewrite nr_chain_push.
      destruct (decide (NR_HASH btvp tag = NR_HASH btvp tag)); [| congruence].
      simpl. unfold slot_nodes at 1. rewrite lookup_insert_eq. simpl.
      rewrite Z.eqb_refl.
      rewrite (sumZ_ext (slot_nodes (nr_mem s) btvp)); [ring |].
      intros a Ha. unfold slot_nodes.
      rewrite lookup_insert_ne by (intros ->; exact (Hnot _ Ha)).
      reflexivity.
    + intros i _ Hi. rewrite nr_chain_push.
      destruct (decide (NR_HASH btvp tag = i)); [congruence |].
      apply sumZ_ext. intros a Ha. unfold slot_nodes. simpl.
      rewrite lookup_insert_ne by (intros ->; exact (Hnot _ Ha)).
      reflexivity.
  - unfold nr_insert in Hins. rewrite Hl in Hins. discriminate.
Qed.

(** [nr_delete] lowers what the hash holds for the tree by the count it
    reports, when the slot is linked or its tag is cleared. *)
Lemma held_nodes_delete s tag btvp nrp nodecnt s' :
  nr_wf s -> 0 <= nr_hashmask ->
  (forall r, nr_mem s !! nrp = Some r -> nr_tag r <> 0 -> nr_linked s nrp) ->
  nr_delete s tag btvp nrp = Some (nodecnt, s') ->
  held_nodes s' btvp = held_nodes s btvp - nodecnt.
Proof.
  intros Hwf Hm Hlinked. unfold nr_delete.
  destruct (nr_mem s !! nrp) as [r |] eqn:Hr; [| discriminate].
  destruct (Z.eqb_spec (nr_tag r) 0) as [H0 | H0];
    [intros [= <- <-]; lia |].
  destruct (Z.eqb_spec (nr_tag r) tag) as [Ht | Ht]; [| discriminate].
  destruct (Z.eqb_spec (nr_btvp r) btvp) as [Hb | Hb]; [| discriminate].
  simpl. intros [= <- <-].
  destruct (Hlinked r eq_refl H0) as [j Hj].
  assert (NR_HASH btvp tag = j) as Hjk
      by (rewrite <- Ht, <- Hb; apply (wf_bucket s Hwf j nrp r Hj Hr H0)).
  unfold held_nodes.
  rewrite (sumZ_point
             (fun i => sumZ (slot_nodes (nr_mem s) btvp) (nr_chain s i))
             _ _ j (- nr_nodecnt r)); [lia | apply NoDup_seqZ | | |].
  - rewrite <- Hjk. apply NR_HASH_in_table. assumption.
  - rewrite nr_chain_unlink. fold (nr_chain s j).
    rewrite (sumZ_ext (slot_nodes (nr_mem s) btvp)).
    + rewrite sumZ_filter_ne by apply (wf_once s Hwf).
      destruct (decide (nrp ∈ nr_chain s j)); [| contradiction].
      unfold slot_nodes at 2. rewrite Hr, Hb, Z.eqb_refl. ring.
    + intros a [Hne _]%list_elem_of_filter. unfold slot_nodes. simpl.
      rewrite lookup_insert_ne by auto. reflexivity.
  - intros i _ Hi. rewrite nr_chain_unlink. fold (nr_chain s i).
    rewrite (sumZ_ext (slot_nodes (nr_mem s) btvp)).
    + rewrite sumZ_filter_ne by apply (wf_once s Hwf).
      destruct (decide (nrp ∈ nr_chain s i)) as [Hin | _]; [| ring].
      exfalso. apply Hi.
      rewrite <- Hjk, <- Ht, <- Hb.
      symmetry. apply (wf_bucket s Hwf i nrp r Hin Hr H0).
    + intros a [Hne _]%list_elem_of_filter. unfold slot_nodes. simpl.
      rewrite lookup_insert_ne by auto. reflexivity.
Qed.

Lemma reserve_save_effect w tag data rsrvNodes w2 :
  reserve_save w tag data rsrvNodes = Some w2 ->
  (data = 0 /\ w2 = w) \/
  (data <> 0 /\
   btree w2
   = set_reservedNodes (to_u32 (reservedNodes (btree w) + rsrvNodes)) (btree w) /\
   nr_insert (nr w) tag (fileRefNum (btree w)) data rsrvNodes = Some (nr w2)).
Proof.
  unfold reserve_save. destruct (Z.eqb_spec data 0) as [-> | Hd].
  - intros [= <-]. left. auto.
  - simpl. destruct (nr_insert _ _ _ _ _) as [s |]; [| discriminate].
    intros [= <-]. right. auto.
Qed.

(** What a call leaves of the tree and of the hash: the tree on entry or
    the tree that [ExtendBTree] left, with the estimate added to its
    reserved-node counter exactly when [nr_insert] was called. *)
Lemma BTReserveSpace_effect w tag operations data err w' :
  BTReserveSpace w tag operations data = Some (err, w') ->
  exists pre,
    (pre = btree w \/
     exists f t, pre = ext_btree (ExtendBTree f (btree w) (hfsmp w) t)) /\
    ((btree w' = pre /\ nr w' = nr w) \/
     (data <> 0 /\
      btree w'
      = set_reservedNodes
          (to_u32 (reservedNodes pre + rsrvNodes_of (btree w) operations)) pre /\
      nr_insert (nr w) tag (fileRefNum pre) data
                (rsrvNodes_of (btree w) operations)
      = Some (nr w'))).
Proof.
  unfold BTReserveSpace.
  assert (forall w1 w2,
             reserve_save w1 tag data (rsrvNodes_of (btree w) operations)
             = Some w2 ->
             nr w1 = nr w ->
             (btree (reserve_out (ff_clumpsize (file w)) w2) = btree w1 /\
              nr (reserve_out (ff_clumpsize (file w)) w2) = nr w) \/
             (data <> 0 /\
              btree (reserve_out (ff_clumpsize (file w)) w2)
              = set_reservedNodes
                  (to_u32 (reservedNodes (btree w1)
                           + rsrvNodes_of (btree w) operations)) (btree w1) /\
              nr_insert (nr w) tag (fileRefNum (btree w1)) data
                        (rsrvNodes_of (btree w) operations)
              = Some (nr (reserve_out (ff_clumpsize (file w)) w2)))) as Hsave.
  { intros w1 w2 Hs Hnr.
    destruct (reserve_out_rest (ff_clumpsize (file w)) w2)
      as (-> & _ & -> & _).
    apply reserve_save_effect in Hs as [[_ ->] | (Hd & Hbt & Hi)].
    - left. auto.
    - right. rewrite <- Hnr. auto. }
  destruct (_ <? _).
  - destruct (reserve_admit _ _ _ _ _ _ _) as [[| f t] |];
      [| | discriminate].
    + intros [= _ <-]. exists (btree w). split; [left; reflexivity |].
      left. auto.
    + destruct (ext_err _ =? 0).
      * destruct (reserve_save _ _ _ _) as [w2 |] eqn:Hs; [| discriminate].
        intros [= _ <-].
        exists (ext_btree (ExtendBTree f (btree w) (hfsmp w) t)).
        split; [right; eauto |].
        exact (Hsave _ _ Hs eq_refl).
      * intros [= _ <-].
        exists (ext_btree (ExtendBTree f (btree w) (hfsmp w) t)).
        split; [right; eauto |]. left.
        match goal with
        | |- context [reserve_out ?c ?w1] =>
            destruct (reserve_out_rest c w1) as (-> & _ & -> & _)
        end.
        auto.
  - destruct (reserve_save _ _ _ _) as [w2 |] eqn:Hs; [| discriminate].
    intros [= _ <-]. exists (btree w). split; [left; reflexivity |].
    exact (Hsave _ _ Hs eq_refl).
Qed.

(** X12. [BTReserveSpace] keeps the books: when the tree's reserved-node
    counter is what the hash holds for the tree, it is so again on return,
    by any path, and the hash is still well formed, provided [ExtendBTree]
    leaves that counter and the tree's vnode alone and the caller's slot
    is not linked. *)
Theorem reserve_keeps_balance
        (w : world) (tag operations data err : Z) (w' : world) :
  (forall f bt m t,
      reservedNodes (ext_btree (ExtendBTree f bt m t)) = reservedNodes bt /\
      fileRefNum (ext_btree (ExtendBTree f bt m t)) = fileRefNum bt) ->
  0 <= nr_hashmask ->
  tag <> 0 ->
  nr_wf (nr w) ->
  ~ nr_linked (nr w) data ->
  balanced w ->
  BTReserveSpace w tag operations data = Some (err, w') ->
  balanced w' /\ nr_wf (nr w').
Proof.
  intros Hext Hm Htag Hwf Hf Hbal E.
  destruct (BTReserveSpace_effect w tag operations data err w' E)
    as (pre & Hpre & Heff).
  assert (reservedNodes pre = reservedNodes (btree w) /\
          fileRefNum pre = fileRefNum (btree w)) as [Hr Hv].
  { destruct Hpre as [-> | (f & t & ->)]; [auto | apply Hext]. }
  unfold balanced in *.
  destruct Heff as [[Hbt Hnr] | (Hd & Hbt & Hi)].
  - rewrite Hbt, Hnr, Hr, Hv. auto.
  - rewrite Hbt. simpl. rewrite Hv in *.
    split; [| exact (nr_insert_wf _ _ _ _ _ _ Hwf Hf Hi)].
    rewrite (held_nodes_insert _ _ _ _ _ _ Hwf Htag Hf Hm Hi).
    rewrite Hr, Hbal. apply to_u32_mod_add.
Qed.

(** X13. [BTReleaseReserve] keeps the books as well: it returns 0, and
    when the tree's reserved-node counter is what the hash holds for the
    tree it is so again afterwards, for a slot whose tag is cleared or
    which is linked. *)
Theorem release_keeps_balance (w : world) (tag data err : Z) (w' : world) :
  0 <= nr_hashmask ->
  nr_wf (nr w) ->
  (forall r, nr_mem (nr w) !! data = Some r -> nr_tag r <> 0 ->
             nr_linked (nr w) data) ->
  balanced w ->
  BTReleaseReserve w tag data = Some (err, w') ->
  err = 0 /\ balanced w' /\ nr_wf (nr w').
Proof.
  intros Hm Hwf Hl Hbal. unfold BTReleaseReserve.
  destruct (nr_delete (nr w) tag (fileRefNum (btree w)) data)
    as [[nodecnt s] |] eqn:Hd; [| discriminate].
  pose proof (held_nodes_delete _ _ _ _ _ _ Hwf Hm Hl Hd) as Hh.
  pose proof (nr_delete_wf _ _ _ _ _ _ Hwf Hd) as Hwf'.
  unfold balanced in *.
  destruct (Z.eqb_spec nodecnt 0) as [-> | Hn].
  - intros [= <- <-]. simpl. rewrite Hh, Z.sub_0_r. auto.
  - intros [= <- <-]. simpl. rewrite Hh, Hbal.
    split; [reflexivity |]. split; [apply to_u32_mod_sub | exact Hwf'].
Qed.

(** X14. [BTUpdateReserve] takes no part in the books: it leaves the
    tree, the file and the volume as they are, what the hash holds for the
    tree does not change, and the hash stays well formed. *)
Theorem update_keeps_balance (w : world) (tag nodes : Z) (w' : world) :
  nr_wf (nr w) ->
  BTUpdateReserve w tag nodes = Some w' ->
  btree w' = btree w /\
  file w' = file w /\
  hfsmp w' = hfsmp w /\
  (forall btvp, held_nodes (nr w') btvp = held_nodes (nr w) btvp) /\
  (balanced w -> balanced w') /\
  nr_wf (nr w').
Proof.
  intros Hwf. unfold BTUpdateReserve.
  destruct (nr_update (nr w) tag (fileRefNum (btree w)) nodes) as [s |] eqn:Hu;
    [| discriminate].
  intros [= <-]. simpl.
  assert (forall btvp, held_nodes s btvp = held_nodes (nr w) btvp) as Hh.
  { intros btvp. unfold nr_update in Hu.
    destruct (nr_lookup _ _ _ _) as [[nrp |] |]; [| | discriminate].
    - destruct (nr_mem (nr w) !! nrp) as [r |] eqn:Hr; [| discriminate].
      injection Hu as <-. unfold held_nodes.
      apply sumZ_ext. intros i _. simpl. apply sumZ_ext. intros a _.
      unfold slot_nodes.
      destruct (decide (nrp = a)) as [<- | Hne].
      + rewrite lookup_insert_eq, Hr. reflexivity.
      + rewrite lookup_insert_ne by assumption. reflexivity.
    - injection Hu as <-. reflexivity. }
  split; [reflexivity |]. split; [reflexivity |]. split; [reflexivity |].
  split; [exact Hh |].
  split; [| exact (nr_update_wf _ _ _ _ _ Hwf Hu)].
  unfold balanced. simpl. rewrite Hh. auto.
Qed.

End NodeReserve.

(** ** The theorems at the data of the scenarios *)

Import Scenario.

(** Scenario A: a height of 1 counts as 2; one insert needs 2 nodes. *)
Example scenario_A : rsrvNodes_of (mkBTCB 4096 1 8192 100 0 0) 1 = 2.
Proof. reflexivity. Qed.

(** Scenario B: height 5, two inserts and one delete need 12 nodes. *)
Example scenario_B :
  rsrvNodes_of (mkBTCB 4096 5 8192 100 0 0) (Z.lor (Z.shiftl 1 16) 2) = 12.
Proof. reflexivity. Qed.

(** A depth of 65535 with the operations word 2147483647, that is 65535
    inserts and 32767 deletes: the formula gives 6442090502, which no
    [int] holds; line 121 leaves 2147123206. *)
Lemma estimate_leaves_the_formula :
  ~ (rsrvNodes_of (mkBTCB 4096 65535 8192 100 0 0) 2147483647
     = 1 + op_deletes 2147483647 * (Z.max 65535 2 - 2)
       + op_inserts 2147483647 * (Z.max 65535 2 - 1)).
Proof. vm_compute. discriminate. Qed.

Example estimate_at_the_largest_word :
  op_inserts 2147483647 = 65535 /\
  op_deletes 2147483647 = 32767 /\
  rsrvNodes_of (mkBTCB 4096 65535 8192 100 0 0) 2147483647 = 2147123206 /\
  1 + 32767 * (Z.max 65535 2 - 2) + 65535 * (Z.max 65535 2 - 1) = 6442090502.
Proof. repeat split; reflexivity. Qed.

Lemma estimate_formula_witness :
  is_int (1 + 1 * (Z.max 5 2 - 2) + 2 * (Z.max 5 2 - 1)) /\
  estimate (clamp_height 5) 2 1 = 12.
Proof.
  assert (is_int (1 + 1 * (Z.max 5 2 - 2) + 2 * (Z.max 5 2 - 1))) as H
      by (unfold is_int, INT_MIN, INT_MAX; simpl; lia).
  split; [exact H |].
  exact (proj1 (proj2 (estimate_formula 5 2 1)) H).
Defined.

Lemma operations_packing_witness :
  65535 < 65539 /\ 0 < op_deletes 65539 /\ op_inserts 65539 < 65539.
Proof.
  assert (65535 < 65539) as H by lia.
  split; [exact H |].
  destruct (operations_packing (tree 0 0) 65539) as (_ & _ & _ & _ & _ & Hp).
  exact (Hp H).
Defined.

(** The clump size is 204800 at the call of [ExtendBTree] and 409600
    again on return. *)
Lemma clumpsize_restored_witness :
  BTReserveSpace maxreserve freeblks mapbits extend_fail hashmask
                 (start 0 100) thread 2 0
  = Some (-34, mkWorld (mkFCB 409600) (tree 0 0) (volume 100) hash0
                       [(105, 204800)]) /\
  ff_clumpsize (file (mkWorld (mkFCB 409600) (tree 0 0) (volume 100) hash0
                              [(105, 204800)]))
  = ff_clumpsize (file (start 0 100)).
Proof.
  assert (BTReserveSpace maxreserve freeblks mapbits extend_fail hashmask
                         (start 0 100) thread 2 0
          = Some (-34, mkWorld (mkFCB 409600) (tree 0 0) (volume 100) hash0
                               [(105, 204800)])) as H
      by (vm_compute; reflexivity).
  split; [exact H |].
  exact (proj1 (clumpsize_restored maxreserve freeblks mapbits extend_fail
                                   hashmask (start 0 100) thread 2 0)
               _ _ H).
Defined.

(** Scenario D: no node available, 5 needed, 40 free blocks with 50 kept
    back, inserts only. *)
Lemma insert_only_refused_when_low_witness :
  availNodes_of (btree (start 0 40)) < rsrvNodes_of (btree (start 0 40)) 2 /\
  0 < blockSize (hfsmp (start 0 40)) /\
  adjusted_freeblks maxreserve freeblks (hfsmp (start 0 40)) = 0 /\
  0 < op_inserts 2 /\
  op_deletes 2 = 0 /\
  BTReserveSpace maxreserve freeblks mapbits extend_ok hashmask
                 (start 0 40) thread 2 256
  = Some (ENOSPC, start 0 40).
Proof.
  assert (availNodes_of (btree (start 0 40))
          < rsrvNodes_of (btree (start 0 40)) 2) as H1 by (vm_compute; reflexivity).
  assert (0 < blockSize (hfsmp (start 0 40))) as H2 by (simpl; lia).
  assert (adjusted_freeblks maxreserve freeblks (hfsmp (start 0 40)) = 0) as H3
      by (vm_compute; reflexivity).
  assert (0 < op_inserts 2) as H4 by (vm_compute; reflexivity).
  assert (op_deletes 2 = 0) as H5 by (vm_compute; reflexivity).
  repeat (split; [assumption |]).
  exact (insert_only_refused_when_low maxreserve freeblks mapbits extend_ok
                                      hashmask _ thread 2 256 H1 H2 H3 H4 H5).
Defined.

(** Scenario E: as D with two deletes, operations [(2 << 16) | 2]. *)
Lemma deletes_never_refused_witness :
  0 < op_deletes 131074 /\
  reserve_admit maxreserve freeblks mapbits
                (file (start 0 40)) (btree (start 0 40)) (hfsmp (start 0 40))
                (rsrvNodes_of (btree (start 0 40)) 131074)
                (availNodes_of (btree (start 0 40)))
                (op_inserts 131074) (op_deletes 131074)
  <> Some Refuse.
Proof.
  assert (0 < op_deletes 131074) as H by (vm_compute; reflexivity).
  split; [exact H |].
  exact (proj1 (deletes_never_refused maxreserve freeblks mapbits extend_fail
                                      hashmask (start 0 40) thread 131074 256 H)).
Defined.

Lemma extension_failure_verbatim_witness :
  availNodes_of (btree (start 0 100)) < rsrvNodes_of (btree (start 0 100)) 2 /\
  reserve_admit maxreserve freeblks mapbits
                (file (start 0 100)) (btree (start 0 100)) (hfsmp (start 0 100))
                (rsrvNodes_of (btree (start 0 100)) 2)
                (availNodes_of (btree (start 0 100)))
                (op_inserts 2) (op_deletes 2)
  = Some (Grow (mkFCB 204800) 105) /\
  ext_err (extend_fail (mkFCB 204800) (btree (start 0 100))
                       (hfsmp (start 0 100)) 105) <> 0 /\
  exists w',
    BTReserveSpace maxreserve freeblks mapbits extend_fail hashmask
                   (start 0 100) thread 2 256
    = Some (-34, w') /\
    reservedNodes (btree w') = 0 /\
    nr w' = hash0 /\
    ff_clumpsize (file w') = 409600.
Proof.
  assert (availNodes_of (btree (start 0 100))
          < rsrvNodes_of (btree (start 0 100)) 2) as H1 by (vm_compute; reflexivity).
  assert (reserve_admit maxreserve freeblks mapbits
                        (file (start 0 100)) (btree (start 0 100))
                        (hfsmp (start 0 100))
                        (rsrvNodes_of (btree (start 0 100)) 2)
                        (availNodes_of (btree (start 0 100)))
                        (op_inserts 2) (op_deletes 2)
          = Some (Grow (mkFCB 204800) 105)) as H2 by (vm_compute; reflexivity).
  assert (ext_err (extend_fail (mkFCB 204800) (btree (start 0 100))
                               (hfsmp (start 0 100)) 105) <> 0) as H3
      by (simpl; lia).
  repeat (split; [assumption |]).
  destruct (extension_failure_verbatim maxreserve freeblks mapbits extend_fail
              hashmask (start 0 100) thread 2 256 (mkFCB 204800) 105 H1 H2 H3)
    as (w' & E & Hbt & Hres & Hnr & Hcl & _).
  exists w'. split; [exact E |].
  split; [exact (Hres eq_refl) |].
  split; [exact Hnr | exact Hcl].
Defined.

Lemma enough_nodes_no_extension_witness :
  is_int (freeNodes (btree (start 50 100))
          - reservedNodes (btree (start 50 100))) /\
  rsrvNodes_of (btree (start 50 100)) 2
  <= freeNodes (btree (start 50 100)) - reservedNodes (btree (start 50 100)) /\
  availNodes_of (btree (start 50 100)) = 50 /\
  BTReserveSpace maxreserve freeblks mapbits extend_fail hashmask
                 (start 50 100) thread 2 0
  = Some (0, start 50 100).
Proof.
  assert (is_int (freeNodes (btree (start 50 100))
                  - reservedNodes (btree (start 50 100)))) as H1
      by (unfold is_int, INT_MIN, INT_MAX; simpl; lia).
  assert (rsrvNodes_of (btree (start 50 100)) 2
          <= freeNodes (btree (start 50 100))
             - reservedNodes (btree (start 50 100))) as H2
      by (vm_compute; discriminate).
  split; [exact H1 |]. split; [exact H2 |].
  destruct (enough_nodes_no_extension maxreserve freeblks mapbits extend_fail
              hashmask (start 50 100) thread 2 0 H1 H2)
    as (Hav & _ & _ & _ & Hn).
  split; [exact Hav | exact (Hn eq_refl)].
Defined.

(** A tree with 3000000000 free nodes of 4000000000 and none reserved: 5
    nodes are needed and far more are free, but line 123 reads the
    difference as the [int] -1294967296, the free-space checks run, and
    with 40 free blocks on the volume the inserts get [ENOSPC]. *)
Lemma enough_free_nodes_yet_refused :
  ~ (rsrvNodes_of (mkBTCB 4096 3 8192 4000000000 3000000000 0) 2
     <= freeNodes (mkBTCB 4096 3 8192 4000000000 3000000000 0)
        - reservedNodes (mkBTCB 4096 3 8192 4000000000 3000000000 0) ->
     forall err w',
       BTReserveSpace maxreserve freeblks mapbits extend_ok hashmask
                      (mkWorld (mkFCB 409600)
                               (mkBTCB 4096 3 8192 4000000000 3000000000 0)
                               (volume 40) hash0 [])
                      thread 2 0
       = Some (err, w') ->
       err = 0 /\ extend_calls w' = []).
Proof.
  intros H.
  assert (rsrvNodes_of (mkBTCB 4096 3 8192 4000000000 3000000000 0) 2
          <= freeNodes (mkBTCB 4096 3 8192 4000000000 3000000000 0)
             - reservedNodes (mkBTCB 4096 3 8192 4000000000 3000000000 0))
    as Hle by (vm_compute; discriminate).
  destruct (H Hle ENOSPC
              (mkWorld (mkFCB 409600)
                       (mkBTCB 4096 3 8192 4000000000 3000000000 0)
                       (volume 40) hash0 [])) as [H0 _];
    [vm_compute; reflexivity | discriminate H0].
Qed.

(** 100 free blocks with 50 kept back leave 50; the clump size asks for
    100 blocks and the 5 missing nodes take 10: the clump size at the call
    of [ExtendBTree] is 50 blocks, 204800 bytes. *)
Lemma growth_shrunk_to_free_blocks_witness :
  0 < blockSize (volume 100) /\
  is_u32 (ff_clumpsize (mkFCB 409600)) /\
  adjusted_freeblks maxreserve freeblks (volume 100)
  < ff_clumpsize (mkFCB 409600) / blockSize (volume 100) /\
  reserve_admit maxreserve freeblks mapbits (mkFCB 409600) (tree 0 0)
                (volume 100) 5 0 2 0
  = Some (Grow (mkFCB 204800) 105) /\
  ff_clumpsize (mkFCB 204800)
  = adjusted_freeblks maxreserve freeblks (volume 100) * blockSize (volume 100) /\
  ff_clumpsize (mkFCB 204800) < ff_clumpsize (mkFCB 409600) /\
  (insert_only 2 0 = true ->
   shortfall_blocks (tree 0 0) (volume 100) 5 0
   <= adjusted_freeblks maxreserve freeblks (volume 100)).
Proof.
  assert (0 < blockSize (volume 100)) as H1 by (simpl; lia).
  assert (is_u32 (ff_clumpsize (mkFCB 409600))) as H2
      by (unfold is_u32, UINT32_MAX; simpl; lia).
  assert (adjusted_freeblks maxreserve freeblks (volume 100)
          < ff_clumpsize (mkFCB 409600) / blockSize (volume 100)) as H3
      by (vm_compute; reflexivity).
  assert (reserve_admit maxreserve freeblks mapbits (mkFCB 409600) (tree 0 0)
                        (volume 100) 5 0 2 0
          = Some (Grow (mkFCB 204800) 105)) as H4 by (vm_compute; reflexivity).
  repeat (split; [assumption |]).
  exact (growth_shrunk_to_free_blocks maxreserve freeblks mapbits
           (mkFCB 409600) (tree 0 0) (volume 100) 5 0 2 0
           (mkFCB 204800) 105 H1 H2 H3 H4).
Defined.

(** At the same data the clump size at the call of [ExtendBTree] is not the
    blocks of the missing nodes: 50 blocks against 10. *)
Lemma growth_is_not_the_shortfall :
  ~ (adjusted_freeblks maxreserve freeblks (volume 100)
     < ff_clumpsize (mkFCB 409600) / blockSize (volume 100) ->
     forall f' totalNodes,
       reserve_admit maxreserve freeblks mapbits (mkFCB 409600) (tree 0 0)
                     (volume 100)
                     (rsrvNodes_of (tree 0 0) 2) (availNodes_of (tree 0 0))
                     (op_inserts 2) (op_deletes 2)
       = Some (Grow f' totalNodes) ->
       ff_clumpsize f' / blockSize (volume 100)
       = shortfall_blocks (tree 0 0) (volume 100)
                          (rsrvNodes_of (tree 0 0) 2) (availNodes_of (tree 0 0))).
Proof.
  intros H.
  assert (adjusted_freeblks maxreserve freeblks (volume 100)
          < ff_clumpsize (mkFCB 409600) / blockSize (volume 100)) as Hlt
      by (vm_compute; reflexivity).
  specialize (H Hlt (mkFCB 204800) 105 eq_refl).
  vm_compute in H. discriminate H.
Qed.

(** Scenario C at the level of the interface: the thread reserves 4 nodes
    with the slot at 256 and 6 with the slot at 512 on a tree of depth 2
    with 50 free nodes; the reserved-node counter is 10, the one record is
    the slot at 256 with count 10; releasing 256 brings the counter to 0,
    releasing 512 changes nothing. *)
Example scenario_C :
  let bt := mkBTCB 4096 2 8192 100 50 0 in
  let w0 := mkWorld (mkFCB 409600) bt (volume 100) hash0 [] in
  exists w1 w2 w3,
    BTReserveSpace maxreserve freeblks mapbits extend_ok hashmask
                   w0 thread 3 256 = Some (0, w1) /\
    BTReserveSpace maxreserve freeblks mapbits extend_ok hashmask
                   w1 thread 5 512 = Some (0, w2) /\
    reservedNodes (btree w2) = 10 /\
    nr_hashtbl (nr w2) = {[ 0 := [256] ]} /\
    nr_mem (nr w2) !! 256 = Some (mkNR 10 0 4096 thread) /\
    nr_mem (nr w2) !! 512 = Some nr_zero /\
    nr_delete (nr w2) thread 4096 256
    = Some (10, mkNRState (<[0 := []]> ∅) slots 1 1) /\
    BTReleaseReserve w2 thread 256 = Some (0, w3) /\
    reservedNodes (btree w3) = 0 /\
    BTReleaseReserve w3 thread 512 = Some (0, w3).
Proof.
  simpl. do 3 eexists.
  split; [vm_compute; reflexivity |].
  split; [vm_compute; reflexivity |].
  repeat split; vm_compute; reflexivity.
Qed.

(** Reserving twice with one and the same slot is another matter: the
    second call clears the tag of the record itself, which stays linked
    with the count of both, and its release reports 0. *)
Example same_slot_twice :
  exists s1 s2,
    nr_insert hashmask hash0 thread 4096 256 4 = Some s1 /\
    nr_insert hashmask s1 thread 4096 256 6 = Some s2 /\
    nr_chain s2 0 = [256] /\
    nr_mem s2 !! 256 = Some (mkNR 10 0 4096 0) /\
    nr_delete s2 thread 4096 256 = Some (0, s2).
Proof.
  do 2 eexists.
  split; [vm_compute; reflexivity |].
  split; [vm_compute; reflexivity |].
  repeat split; vm_compute; reflexivity.
Qed.

Lemma one_record_per_owner_witness :
  nr_reachable hashmask slots hash0 /\
  thread <> 0 /\
  256 <> 512 /\
  is_Some (nr_mem hash0 !! 256) /\
  is_Some (nr_mem hash0 !! 512) /\
  ~ nr_linked hash0 256 /\
  ~ nr_linked hash0 512 /\
  (forall a, ~ nr_record hash0 4096 thread a) /\
  is_int (4 + 6) /\
  exists s1 s2 s3,
    nr_insert hashmask hash0 thread 4096 256 4 = Some s1 /\
    nr_insert hashmask s1 thread 4096 512 6 = Some s2 /\
    (forall a, nr_record s2 4096 thread a <-> a = 256) /\
    nr_mem s2 !! 256 = Some (mkNR 10 0 4096 thread) /\
    nr_delete s2 thread 4096 256 = Some (10, s3) /\
    nr_delete s3 thread 4096 256 = Some (0, s3) /\
    nr_delete s3 thread 4096 512 = Some (0, s3).
Proof.
  assert (forall a, ~ nr_linked hash0 a) as Hnl.
  { intros a [i Hi]. unfold nr_chain, hash0 in Hi. simpl in Hi.
    rewrite lookup_empty in Hi. simpl in Hi. inversion Hi. }
  assert (nr_reachable hashmask slots hash0) as H1 by apply rtc_refl.
  assert (thread <> 0) as H2 by discriminate.
  assert (256 <> 512) as H3 by discriminate.
  assert (is_Some (nr_mem hash0 !! 256)) as H4 by (eexists; reflexivity).
  assert (is_Some (nr_mem hash0 !! 512)) as H5 by (eexists; reflexivity).
  assert (forall a, ~ nr_record hash0 4096 thread a) as H8
      by (intros a [Ha _]; exact (Hnl a Ha)).
  assert (is_int (4 + 6)) as H9
      by (unfold is_int, INT_MIN, INT_MAX; simpl; lia).
  split; [exact H1 |]. split; [exact H2 |]. split; [exact H3 |].
  split; [exact H4 |]. split; [exact H5 |].
  split; [exact (Hnl 256) |]. split; [exact (Hnl 512) |].
  split; [exact H8 |]. split; [exact H9 |].
  destruct (one_record_per_owner hashmask slots hash0 thread 4096 H1 H2)
    as (_ & Hm).
  destruct (Hm 256 512 4 6 H3 H4 H5 (Hnl 256) (Hnl 512) H8 H9)
    as (s1 & s2 & s3 & E1 & E2 & _ & _ & _ & _ & Hr2 & _ & _ & _ & Hm2 & _
        & _ & E3 & E4 & E5 & _).
  exists s1, s2, s3. repeat (split; [assumption |]). assumption.
Defined.

Lemma release_cleared_slot_witness :
  nr_mem (nr (start 0 100)) !! 512 = Some nr_zero /\
  nr_tag nr_zero = 0 /\
  BTReleaseReserve (start 0 100) thread 512 = Some (0, start 0 100).
Proof.
  assert (nr_mem (nr (start 0 100)) !! 512 = Some nr_zero) as H1
      by reflexivity.
  assert (nr_tag nr_zero = 0) as H2 by reflexivity.
  split; [exact H1 |]. split; [exact H2 |].
  exact (proj1 (proj2 (release_cleared_slot (start 0 100) thread 512
                                            nr_zero H1 H2))).
Defined.

(** ** The further theorems at the data of the scenarios *)

Lemma hash0_wf : nr_wf hashmask hash0.
Proof. apply nr_wf_empty. Qed.

Lemma hash0_unlinked a : ~ nr_linked hash0 a.
Proof.
  intros [i Hi]. unfold nr_chain, hash0 in Hi. simpl in Hi.
  rewrite lookup_empty in Hi. simpl in Hi. inversion Hi.
Qed.

Lemma hash0_no_record btvp tag a : ~ nr_record hash0 btvp tag a.
Proof. intros [Ha _]. exact (hash0_unlinked a Ha). Qed.

(** The hash after the thread reserved 5 nodes of the tree with the slot
    at 256. *)
Lemma hash0_insert :
  nr_insert hashmask hash0 thread 4096 256 5
  = Some (mkNRState (<[0 := [256]]> ∅)
                    (<[256 := mkNR 5 0 4096 thread]> slots) 1 0).
Proof. vm_compute. reflexivity. Qed.

Lemma hash1_wf :
  nr_wf hashmask (mkNRState (<[0 := [256]]> ∅)
                            (<[256 := mkNR 5 0 4096 thread]> slots) 1 0).
Proof.
  exact (nr_insert_wf hashmask hash0 thread 4096 256 5 _
                      hash0_wf (hash0_unlinked 256) hash0_insert).
Qed.

Lemma hash1_linked :
  nr_linked (mkNRState (<[0 := [256]]> ∅)
                       (<[256 := mkNR 5 0 4096 thread]> slots) 1 0) 256.
Proof.
  exists 0. unfold nr_chain. simpl. rewrite lookup_insert_eq. simpl. left.
Qed.

Lemma hash1_record :
  nr_record (mkNRState (<[0 := [256]]> ∅)
                       (<[256 := mkNR 5 0 4096 thread]> slots) 1 0)
            4096 thread 256.
Proof.
  split; [exact hash1_linked |].
  exists (mkNR 5 0 4096 thread).
  split; [apply lookup_insert_eq |]. split; reflexivity.
Qed.

Lemma estimate_bounds_witness :
  3 <= 5 /\ 5 <= 21847 /\ 0 <= 2 /\ 2 <= 2 /\ 2 <= 65535 /\
  0 <= 1 /\ 1 <= 1 /\ 1 <= 32767 /\
  1 + 2 <= estimate (clamp_height 3) 2 1 /\
  estimate (clamp_height 3) 2 1 <= estimate (clamp_height 5) 2 1.
Proof.
  assert (3 <= 5) as H1 by lia.
  assert (5 <= 21847) as H2 by lia.
  assert (0 <= 2) as H3 by lia.
  assert (2 <= 2) as H4 by lia.
  assert (2 <= 65535) as H5 by lia.
  assert (0 <= 1) as H6 by lia.
  assert (1 <= 1) as H7 by lia.
  assert (1 <= 32767) as H8 by lia.
  split; [exact H1 |].
  split; [exact H2 |].
  split; [exact H3 |].
  split; [exact H4 |].
  split; [exact H5 |].
  split; [exact H6 |].
  split; [exact H7 |].
  split; [exact H8 |].
  destruct (estimate_bounds 3 5 2 2 1 1 H1 H2 H3 H4 H5 H6 H7 H8)
    as (Ha & _ & Hb).
  split; [exact Ha | exact Hb].
Defined.

Lemma rsrvblks_closed_form_witness :
  0 < blockSize (volume 100) /\
  is_u32 maxreserve /\
  is_u32 (allocLimit (volume 100)) /\
  rsrvblks_of maxreserve (volume 100)
  = Z.min (allocLimit (volume 100) / 20)
          (Z.max 1 (maxreserve / blockSize (volume 100))).
Proof.
  assert (0 < blockSize (volume 100)) as H1 by (simpl; lia).
  assert (is_u32 maxreserve) as H2
      by (unfold is_u32, UINT32_MAX, maxreserve; simpl; lia).
  assert (is_u32 (allocLimit (volume 100))) as H3
      by (unfold is_u32, UINT32_MAX; simpl; lia).
  split; [exact H1 |].
  split; [exact H2 |].
  split; [exact H3 |].
  exact (proj1 (rsrvblks_closed_form maxreserve (volume 100) H1 H2 H3)).
Defined.

Lemma new_totalNodes_exact_witness :
  0 < 5 /\
  is_u32 (totalNodes (tree 0 0)) /\
  totalNodes (tree 0 0) + (5 - 0) < INT_MAX /\
  totalNodes (tree 0 0) < new_totalNodes mapbits (tree 0 0) 5 0.
Proof.
  assert (0 < 5) as H1 by lia.
  assert (is_u32 (totalNodes (tree 0 0))) as H2
      by (unfold is_u32, UINT32_MAX; simpl; lia).
  assert (totalNodes (tree 0 0) + (5 - 0) < INT_MAX) as H3
      by (unfold INT_MAX; simpl; lia).
  split; [exact H1 |].
  split; [exact H2 |].
  split; [exact H3 |].
  exact (proj2 (new_totalNodes_exact mapbits (tree 0 0) 5 0 H1 H2 H3)).
Defined.

Lemma refused_exactly_when_witness :
  availNodes_of (btree (start 0 40)) < rsrvNodes_of (btree (start 0 40)) 2 /\
  blockSize (hfsmp (start 0 40)) <> 0 /\
  (BTReserveSpace maxreserve freeblks mapbits extend_ok hashmask
                  (start 0 40) thread 2 256
   = Some (ENOSPC, start 0 40) <->
   insert_only (op_inserts 2) (op_deletes 2) = true /\
   (to_u32 (freeblks (hfsmp (start 0 40)) 0)
    <= rsrvblks_of maxreserve (hfsmp (start 0 40)) \/
    (adjusted_freeblks maxreserve freeblks (hfsmp (start 0 40))
     < ff_clumpsize (file (start 0 40)) / blockSize (hfsmp (start 0 40)) /\
     adjusted_freeblks maxreserve freeblks (hfsmp (start 0 40))
     < shortfall_blocks (btree (start 0 40)) (hfsmp (start 0 40))
                        (rsrvNodes_of (btree (start 0 40)) 2)
                        (availNodes_of (btree (start 0 40)))))).
Proof.
  assert (availNodes_of (btree (start 0 40))
          < rsrvNodes_of (btree (start 0 40)) 2) as H1
      by (vm_compute; reflexivity).
  assert (blockSize (hfsmp (start 0 40)) <> 0) as H2 by (simpl; lia).
  split; [exact H1 |].
  split; [exact H2 |].
  exact (refused_exactly_when maxreserve freeblks mapbits extend_ok hashmask
                              (start 0 40) thread 2 256 H1 H2).
Defined.

Lemma extension_success_saved_witness :
  availNodes_of (btree (start 0 100)) < rsrvNodes_of (btree (start 0 100)) 2 /\
  reserve_admit maxreserve freeblks mapbits
                (file (start 0 100)) (btree (start 0 100)) (hfsmp (start 0 100))
                (rsrvNodes_of (btree (start 0 100)) 2)
                (availNodes_of (btree (start 0 100)))
                (op_inserts 2) (op_deletes 2)
  = Some (Grow (mkFCB 204800) 105) /\
  ext_err (extend_ok (mkFCB 204800) (btree (start 0 100))
                     (hfsmp (start 0 100)) 105) = 0 /\
  (256 = 0 \/
   (nr_wf hashmask (nr (start 0 100)) /\
    is_Some (nr_mem (nr (start 0 100)) !! 256))) /\
  exists w',
    BTReserveSpace maxreserve freeblks mapbits extend_ok hashmask
                   (start 0 100) thread 2 256
    = Some (0, w') /\
    totalNodes (btree w') = 105 /\
    reservedNodes (btree w') = 5 /\
    ff_clumpsize (file w') = 409600.
Proof.
  assert (availNodes_of (btree (start 0 100))
          < rsrvNodes_of (btree (start 0 100)) 2) as H1
      by (vm_compute; reflexivity).
  assert (reserve_admit maxreserve freeblks mapbits
                        (file (start 0 100)) (btree (start 0 100))
                        (hfsmp (start 0 100))
                        (rsrvNodes_of (btree (start 0 100)) 2)
                        (availNodes_of (btree (start 0 100)))
                        (op_inserts 2) (op_deletes 2)
          = Some (Grow (mkFCB 204800) 105)) as H2 by (vm_compute; reflexivity).
  assert (ext_err (extend_ok (mkFCB 204800) (btree (start 0 100))
                             (hfsmp (start 0 100)) 105) = 0) as H3
      by reflexivity.
  assert (256 = 0 \/
          (nr_wf hashmask (nr (start 0 100)) /\
           is_Some (nr_mem (nr (start 0 100)) !! 256))) as H4
      by (right; split; [exact hash0_wf | eexists; reflexivity]).
  split; [exact H1 |].
  split; [exact H2 |].
  split; [exact H3 |].
  split; [exact H4 |].
  destruct (extension_success_saved maxreserve freeblks mapbits extend_ok
              hashmask (start 0 100) thread 2 256 (mkFCB 204800) 105
              H1 H2 H3 H4)
    as (w' & E & _ & Hc & _ & Ht & _ & Hr).
  exists w'. split; [exact E |].
  split; [exact Ht |]. split; [exact Hr | exact Hc].
Defined.

Lemma nothing_saved_witness :
  BTReserveSpace maxreserve freeblks mapbits extend_ok hashmask
                 (start 0 40) thread 2 256
  = Some (ENOSPC, start 0 40) /\
  (256 = 0 \/ ENOSPC <> 0) /\
  nr (start 0 40) = nr (start 0 40).
Proof.
  assert (BTReserveSpace maxreserve freeblks mapbits extend_ok hashmask
                         (start 0 40) thread 2 256
          = Some (ENOSPC, start 0 40)) as H1 by (vm_compute; reflexivity).
  assert (256 = 0 \/ ENOSPC <> 0) as H2 by (right; discriminate).
  split; [exact H1 |].
  split; [exact H2 |].
  exact (proj1 (nothing_saved maxreserve freeblks mapbits extend_ok hashmask
                              (start 0 40) thread 2 256 ENOSPC (start 0 40)
                              H1 H2)).
Defined.

(** Five nodes reserved with the slot at 256 on a tree with 50 free
    nodes. *)
Lemma persistent_reserve_recorded_witness :
  BTReserveSpace maxreserve freeblks mapbits extend_ok hashmask
                 (start 50 100) thread 2 256
  = Some (0, mkWorld (mkFCB 409600) (mkBTCB 4096 3 8192 100 50 5)
                     (volume 100)
                     (mkNRState (<[0 := [256]]> ∅)
                                (<[256 := mkNR 5 0 4096 thread]> slots) 1 0)
                     []) /\
  256 <> 0 /\
  thread <> 0 /\
  nr_wf hashmask (nr (start 50 100)) /\
  ~ nr_linked (nr (start 50 100)) 256 /\
  nr_wf hashmask
        (mkNRState (<[0 := [256]]> ∅)
                   (<[256 := mkNR 5 0 4096 thread]> slots) 1 0).
Proof.
  assert (BTReserveSpace maxreserve freeblks mapbits extend_ok hashmask
                         (start 50 100) thread 2 256
          = Some (0, mkWorld (mkFCB 409600) (mkBTCB 4096 3 8192 100 50 5)
                             (volume 100)
                             (mkNRState (<[0 := [256]]> ∅)
                                        (<[256 := mkNR 5 0 4096 thread]> slots)
                                        1 0)
                             [])) as H1 by (vm_compute; reflexivity).
  assert (256 <> 0) as H2 by discriminate.
  assert (thread <> 0) as H3 by discriminate.
  pose proof hash0_wf as H4.
  pose proof (hash0_unlinked 256) as H5.
  split; [exact H1 |].
  split; [exact H2 |].
  split; [exact H3 |].
  split; [exact H4 |].
  split; [exact H5 |].
  exact (proj1 (persistent_reserve_recorded
                  maxreserve freeblks mapbits extend_ok hashmask
                  (start 50 100) thread 2 256 _ H1 H2 H3 H4 H5)).
Defined.

Lemma reserve_release_round_trip_witness :
  rsrvNodes_of (btree (start 50 100)) 2 <= availNodes_of (btree (start 50 100)) /\
  256 <> 0 /\
  thread <> 0 /\
  nr_wf hashmask (nr (start 50 100)) /\
  is_Some (nr_mem (nr (start 50 100)) !! 256) /\
  ~ nr_linked (nr (start 50 100)) 256 /\
  (forall a, ~ nr_record (nr (start 50 100))
                         (fileRefNum (btree (start 50 100))) thread a) /\
  is_u32 (reservedNodes (btree (start 50 100))) /\
  exists w1 w2,
    BTReserveSpace maxreserve freeblks mapbits extend_ok hashmask
                   (start 50 100) thread 2 256 = Some (0, w1) /\
    reservedNodes (btree w1) = 5 /\
    BTReleaseReserve w1 thread 256 = Some (0, w2) /\
    btree w2 = btree (start 50 100).
Proof.
  assert (rsrvNodes_of (btree (start 50 100)) 2
          <= availNodes_of (btree (start 50 100))) as H1
      by (vm_compute; discriminate).
  assert (256 <> 0) as H2 by discriminate.
  assert (thread <> 0) as H3 by discriminate.
  pose proof hash0_wf as H4.
  assert (is_Some (nr_mem (nr (start 50 100)) !! 256)) as H5
      by (eexists; reflexivity).
  pose proof (hash0_unlinked 256) as H6.
  assert (forall a, ~ nr_record (nr (start 50 100))
                                (fileRefNum (btree (start 50 100))) thread a)
    as H7 by (intros a; apply hash0_no_record).
  assert (is_u32 (reservedNodes (btree (start 50 100)))) as H8
      by (unfold is_u32, UINT32_MAX; simpl; lia).
  split; [exact H1 |].
  split; [exact H2 |].
  split; [exact H3 |].
  split; [exact H4 |].
  split; [exact H5 |].
  split; [exact H6 |].
  split; [exact H7 |].
  split; [exact H8 |].
  destruct (reserve_release_round_trip
              maxreserve freeblks mapbits extend_ok hashmask
              (start 50 100) thread 2 256 H1 H2 H3 H4 H5 H6 H7 H8)
    as (w1 & w2 & E1 & Hr & _ & E2 & Hbt & _).
  exists w1, w2. repeat (split; [assumption |]). assumption.
Defined.

Lemma update_counts_allocations_witness :
  nr_wf hashmask (mkNRState (<[0 := [256]]> ∅)
                            (<[256 := mkNR 5 0 4096 thread]> slots) 1 0) /\
  thread <> 0 /\
  nr_record (mkNRState (<[0 := [256]]> ∅)
                       (<[256 := mkNR 5 0 4096 thread]> slots) 1 0)
            4096 thread 256 /\
  nr_mem (mkNRState (<[0 := [256]]> ∅)
                    (<[256 := mkNR 5 0 4096 thread]> slots) 1 0) !! 256
  = Some (mkNR 5 0 4096 thread) /\
  exists s',
    nr_update hashmask
              (mkNRState (<[0 := [256]]> ∅)
                         (<[256 := mkNR 5 0 4096 thread]> slots) 1 0)
              thread 4096 3
    = Some s' /\
    nr_hashtbl s' = <[0 := [256]]> ∅ /\
    nr_mem s' !! 256 = Some (mkNR 5 3 4096 thread) /\
    nr_mem s' !! 512 = Some nr_zero /\
    fst <$> nr_delete s' thread 4096 256 = Some 5.
Proof.
  pose proof hash1_wf as H1.
  assert (thread <> 0) as H2 by discriminate.
  pose proof hash1_record as H3.
  assert (nr_mem (mkNRState (<[0 := [256]]> ∅)
                            (<[256 := mkNR 5 0 4096 thread]> slots) 1 0)
          !! 256
          = Some (mkNR 5 0 4096 thread)) as H4 by apply lookup_insert_eq.
  split; [exact H1 |]. split; [exact H2 |].
  split; [exact H3 |]. split; [exact H4 |].
  destruct (proj1 (update_counts_allocations hashmask _ thread 4096 3 H1 H2)
                  256 (mkNR 5 0 4096 thread) H3 H4)
    as (s' & E & Ht & Hm & Ho & Hd & _).
  exists s'. split; [exact E |]. split; [exact Ht |].
  split; [exact Hm |].
  split; [rewrite (Ho 512) by discriminate; reflexivity | exact Hd].
Defined.

Lemma same_slot_reserved_twice_witness :
  nr_wf hashmask hash0 /\
  thread <> 0 /\
  is_Some (nr_mem hash0 !! 256) /\
  ~ nr_linked hash0 256 /\
  (forall a, ~ nr_record hash0 4096 thread a) /\
  exists s1 s2,
    nr_insert hashmask hash0 thread 4096 256 4 = Some s1 /\
    nr_insert hashmask s1 thread 4096 256 6 = Some s2 /\
    nr_linked s2 256 /\
    nr_delete s2 thread 4096 256 = Some (0, s2).
Proof.
  pose proof hash0_wf as H1.
  assert (thread <> 0) as H2 by discriminate.
  assert (is_Some (nr_mem hash0 !! 256)) as H3 by (eexists; reflexivity).
  pose proof (hash0_unlinked 256) as H4.
  assert (forall a, ~ nr_record hash0 4096 thread a) as H5
      by (intros a; apply hash0_no_record).
  split; [exact H1 |].
  split; [exact H2 |].
  split; [exact H3 |].
  split; [exact H4 |].
  split; [exact H5 |].
  destruct (same_slot_reserved_twice hashmask hash0 thread 4096 256 4 6
              H1 H2 H3 H4 H5)
    as (s1 & s2 & E1 & E2 & Hl & _ & Hd & _).
  exists s1, s2. repeat (split; [assumption |]). assumption.
Defined.

Lemma buckets_within_mask_witness :
  0 <= hashmask /\
  nr_reachable hashmask slots hash0 /\
  0 <= NR_HASH hashmask 4096 thread <= hashmask.
Proof.
  assert (0 <= hashmask) as H1 by (unfold hashmask; lia).
  assert (nr_reachable hashmask slots hash0) as H2 by apply rtc_refl.
  split; [exact H1 |].
  split; [exact H2 |].
  exact (proj1 (buckets_within_mask hashmask slots hash0 H1 H2) 4096 thread).
Defined.

Lemma reserve_keeps_balance_witness :
  (forall f bt m t,
      reservedNodes (ext_btree (extend_ok f bt m t)) = reservedNodes bt /\
      fileRefNum (ext_btree (extend_ok f bt m t)) = fileRefNum bt) /\
  0 <= hashmask /\
  thread <> 0 /\
  nr_wf hashmask (nr (start 0 100)) /\
  ~ nr_linked (nr (start 0 100)) 256 /\
  balanced hashmask (start 0 100) /\
  BTReserveSpace maxreserve freeblks mapbits extend_ok hashmask
                 (start 0 100) thread 2 256
  = Some (0, mkWorld (mkFCB 409600) (mkBTCB 4096 3 8192 105 5 5)
                     (volume 100)
                     (mkNRState (<[0 := [256]]> ∅)
                                (<[256 := mkNR 5 0 4096 thread]> slots) 1 0)
                     [(105, 204800)]) /\
  balanced hashmask
           (mkWorld (mkFCB 409600) (mkBTCB 4096 3 8192 105 5 5)
                    (volume 100)
                    (mkNRState (<[0 := [256]]> ∅)
                               (<[256 := mkNR 5 0 4096 thread]> slots) 1 0)
                    [(105, 204800)]).
Proof.
  assert (forall f bt m t,
             reservedNodes (ext_btree (extend_ok f bt m t)) = reservedNodes bt /\
             fileRefNum (ext_btree (extend_ok f bt m t)) = fileRefNum bt) as H1
      by (intros; split; reflexivity).
  assert (0 <= hashmask) as H2 by (unfold hashmask; lia).
  assert (thread <> 0) as H3 by discriminate.
  pose proof hash0_wf as H4.
  pose proof (hash0_unlinked 256) as H5.
  assert (balanced hashmask (start 0 100)) as H6 by (vm_compute; reflexivity).
  assert (BTReserveSpace maxreserve freeblks mapbits extend_ok hashmask
                         (start 0 100) thread 2 256
          = Some (0, mkWorld (mkFCB 409600) (mkBTCB 4096 3 8192 105 5 5)
                             (volume 100)
                             (mkNRState (<[0 := [256]]> ∅)
                                        (<[256 := mkNR 5 0 4096 thread]> slots)
                                        1 0)
                             [(105, 204800)])) as H7
      by (vm_compute; reflexivity).
  split; [exact H1 |].
  split; [exact H2 |].
  split; [exact H3 |].
  split; [exact H4 |].
  split; [exact H5 |].
  split; [exact H6 |].
  split; [exact H7 |].
  exact (proj1 (reserve_keeps_balance
                  maxreserve freeblks mapbits extend_ok hashmask
                  (start 0 100) thread 2 256 0 _ H1 H2 H3 H4 H5 H6 H7)).
Defined.

(** The release of the record of 5 nodes: the counter goes from 5 to 0. *)
Lemma release_keeps_balance_witness :
  0 <= hashmask /\
  nr_wf hashmask
        (nr (mkWorld (mkFCB 409600) (mkBTCB 4096 3 8192 100 50 5) (volume 100)
                     (mkNRState (<[0 := [256]]> ∅)
                                (<[256 := mkNR 5 0 4096 thread]> slots) 1 0)
                     [])) /\
  (forall r,
      nr_mem (nr (mkWorld (mkFCB 409600) (mkBTCB 4096 3 8192 100 50 5)
                          (volume 100)
                          (mkNRState (<[0 := [256]]> ∅)
                                     (<[256 := mkNR 5 0 4096 thread]> slots)
                                     1 0)
                          [])) !! 256 = Some r ->
      nr_tag r <> 0 ->
      nr_linked (nr (mkWorld (mkFCB 409600) (mkBTCB 4096 3 8192 100 50 5)
                             (volume 100)
                             (mkNRState (<[0 := [256]]> ∅)
                                        (<[256 := mkNR 5 0 4096 thread]> slots)
                                        1 0)
                             [])) 256) /\
  balanced hashmask
           (mkWorld (mkFCB 409600) (mkBTCB 4096 3 8192 100 50 5) (volume 100)
                    (mkNRState (<[0 := [256]]> ∅)
                               (<[256 := mkNR 5 0 4096 thread]> slots) 1 0)
                    []) /\
  BTReleaseReserve
    (mkWorld (mkFCB 409600) (mkBTCB 4096 3 8192 100 50 5) (volume 100)
             (mkNRState (<[0 := [256]]> ∅)
                        (<[256 := mkNR 5 0 4096 thread]> slots) 1 0)
             [])
    thread 256
  = Some (0, mkWorld (mkFCB 409600) (mkBTCB 4096 3 8192 100 50 0) (volume 100)
                     (mkNRState (<[0 := []]> ∅) slots 1 1) []) /\
  balanced hashmask
           (mkWorld (mkFCB 409600) (mkBTCB 4096 3 8192 100 50 0) (volume 100)
                    (mkNRState (<[0 := []]> ∅) slots 1 1) []) /\
  nr_wf hashmask (mkNRState (<[0 := []]> ∅) slots 1 1).
Proof.
  assert (0 <= hashmask) as H1 by (unfold hashmask; lia).
  pose proof hash1_wf as H2.
  assert (forall r,
             nr_mem (mkNRState (<[0 := [256]]> ∅)
                               (<[256 := mkNR 5 0 4096 thread]> slots) 1 0)
             !! 256 = Some r ->
             nr_tag r <> 0 ->
             nr_linked (mkNRState (<[0 := [256]]> ∅)
                                  (<[256 := mkNR 5 0 4096 thread]> slots) 1 0)
                       256) as H3
      by (intros r _ _; exact hash1_linked).
  assert (balanced hashmask
            (mkWorld (mkFCB 409600) (mkBTCB 4096 3 8192 100 50 5) (volume 100)
                     (mkNRState (<[0 := [256]]> ∅)
                                (<[256 := mkNR 5 0 4096 thread]> slots) 1 0)
                     [])) as H4 by (vm_compute; reflexivity).
  assert (BTReleaseReserve
            (mkWorld (mkFCB 409600) (mkBTCB 4096 3 8192 100 50 5) (volume 100)
                     (mkNRState (<[0 := [256]]> ∅)
                                (<[256 := mkNR 5 0 4096 thread]> slots) 1 0)
                     [])
            thread 256
          = Some (0, mkWorld (mkFCB 409600) (mkBTCB 4096 3 8192 100 50 0)
                             (volume 100)
                             (mkNRState (<[0 := []]> ∅) slots 1 1) [])) as H5
      by (vm_compute; reflexivity).
  split; [exact H1 |]. split; [exact H2 |]. split; [exact H3 |].
  split; [exact H4 |]. split; [exact H5 |].
  match type of H5 with
  | BTReleaseReserve ?w _ _ = Some (_, ?w') =>
      exact (proj2 (release_keeps_balance hashmask w thread 256 0 w'
                                          H1 H2 H3 H4 H5))
  end.
Defined.

(** One node allocated by the thread that holds the record of 5 nodes. *)
Lemma update_keeps_balance_witness :
  nr_wf hashmask
        (nr (mkWorld (mkFCB 409600) (mkBTCB 4096 3 8192 100 50 5) (volume 100)
                     (mkNRState (<[0 := [256]]> ∅)
                                (<[256 := mkNR 5 0 4096 thread]> slots) 1 0)
                     [])) /\
  BTUpdateReserve hashmask
    (mkWorld (mkFCB 409600) (mkBTCB 4096 3 8192 100 50 5) (volume 100)
             (mkNRState (<[0 := [256]]> ∅)
                        (<[256 := mkNR 5 0 4096 thread]> slots) 1 0)
             [])
    thread 1
  = Some (mkWorld (mkFCB 409600) (mkBTCB 4096 3 8192 100 50 5) (volume 100)
                  (mkNRState (<[0 := [256]]> ∅)
                             (<[256 := mkNR 5 1 4096 thread]> slots) 1 0)
                  []) /\
  held_nodes hashmask
             (mkNRState (<[0 := [256]]> ∅)
                        (<[256 := mkNR 5 1 4096 thread]> slots) 1 0) 4096
  = held_nodes hashmask
               (mkNRState (<[0 := [256]]> ∅)
                          (<[256 := mkNR 5 0 4096 thread]> slots) 1 0) 4096 /\
  balanced hashmask
           (mkWorld (mkFCB 409600) (mkBTCB 4096 3 8192 100 50 5) (volume 100)
                    (mkNRState (<[0 := [256]]> ∅)
                               (<[256 := mkNR 5 1 4096 thread]> slots) 1 0)
                    []) /\
  nr_wf hashmask
        (mkNRState (<[0 := [256]]> ∅)
                   (<[256 := mkNR 5 1 4096 thread]> slots) 1 0).
Proof.
  pose proof hash1_wf as H1.
  assert (BTUpdateReserve hashmask
            (mkWorld (mkFCB 409600) (mkBTCB 4096 3 8192 100 50 5) (volume 100)
                     (mkNRState (<[0 := [256]]> ∅)
                                (<[256 := mkNR 5 0 4096 thread]> slots) 1 0)
                     [])
            thread 1
          = Some (mkWorld (mkFCB 409600) (mkBTCB 4096 3 8192 100 50 5)
                          (volume 100)
                          (mkNRState (<[0 := [256]]> ∅)
                                     (<[256 := mkNR 5 1 4096 thread]> slots)
                                     1 0)
                          [])) as H2 by (vm_compute; reflexivity).
  assert (balanced hashmask
            (mkWorld (mkFCB 409600) (mkBTCB 4096 3 8192 100 50 5) (volume 100)
                     (mkNRState (<[0 := [256]]> ∅)
                                (<[256 := mkNR 5 0 4096 thread]> slots) 1 0)
                     [])) as H3 by (vm_compute; reflexivity).
  split; [exact H1 |]. split; [exact H2 |].
  match type of H2 with
  | BTUpdateReserve _ ?w _ _ = Some ?w' =>
      destruct (update_keeps_balance hashmask w thread 1 w' H1 H2)
        as (_ & _ & _ & Hh & Hb & Hw)
  end.
  split; [exact (Hh 4096) |].
  split; [exact (Hb H3) | exact Hw].
Defined.
